(** * The control-group freezer (kernel/cgroup_freezer.c)

    A shallow embedding of the freezer subsystem: the three-valued state of
    a group, the scan that decides convergence, the freeze and thaw passes,
    the state register (read / write), and the attach and fork hooks.

    The per-task primitives of <linux/freezer.h> and the cgroup core are
    not part of the file; they appear here as an interface ([FreezerOps])
    over which every definition and theorem is generic.  Calls that leave
    the file (locks, iterators, task primitives) and every write to
    [freezer->state] are recorded, in program order, in a list of events
    returned next to the result. *)

From Stdlib Require Import ZArith List String Ascii Bool Lia Permutation.
Import ListNotations.
Local Open Scope Z_scope.

(** ** Data model *)

(** [enum freezer_state]. *)
Inductive freezer_state : Type :=
| STATE_RUNNING
| STATE_FREEZING
| STATE_FROZEN.

Definition freezer_state_eqb (a b : freezer_state) : bool :=
  match a, b with
  | STATE_RUNNING, STATE_RUNNING => true
  | STATE_FREEZING, STATE_FREEZING => true
  | STATE_FROZEN, STATE_FROZEN => true
  | _, _ => false
  end.

(** [freezer_state_strs[]], indexed by the enum. *)
Definition freezer_state_strs (s : freezer_state) : string :=
  match s with
  | STATE_RUNNING => "RUNNING"
  | STATE_FREEZING => "FREEZING"
  | STATE_FROZEN => "FROZEN"
  end%string.

(** Modelled from the spec: the errno values behind the spec's [Busy],
    I/O-kind and [NoSuchGroup] errors; <linux/errno.h> is not among the
    sources.  The values are those of asm-generic/errno-base.h. *)
Definition EIO : Z := 5.
Definition EBUSY : Z := 16.
Definition ENODEV : Z := 19.

(** [unsigned int] arithmetic: the counters of the scans wrap at 2^32. *)
Definition UINT_MAX : Z := 2 ^ 32 - 1.
Definition u32 (z : Z) : Z := z mod 2 ^ 32.

(** [strcmp] of the C library (lib/string.c, not among the sources): the
    difference of the first pair of bytes that differ, the comparison
    stopping at the first NUL of either argument.  A string here stands for
    the bytes of a buffer whose terminating NUL is implicit. *)
Definition byte_of (c : ascii) : Z := Z.of_N (N_of_ascii c).

Fixpoint strcmp (cs ct : string) : Z :=
  match cs, ct with
  | EmptyString, EmptyString => 0
  | EmptyString, String c _ => 0 - byte_of c
  | String c _, EmptyString => byte_of c
  | String c1 s1, String c2 s2 =>
      if byte_of c1 =? byte_of c2
      then (if byte_of c1 =? 0 then 0 else strcmp s1 s2)
      else byte_of c1 - byte_of c2
  end.

(** The C string held by a buffer: its bytes up to the first NUL. *)
Fixpoint c_str (s : string) : string :=
  match s with
  | EmptyString => EmptyString
  | String c r => if byte_of c =? 0 then EmptyString else String c (c_str r)
  end.

(** ** The interface to the task freezer

    [frozen], [freezing], [task_is_stopped_or_traced] and
    [freezer_should_skip] read a task; [freeze_task], [__thaw_process] and
    [wake_up_process] also change it, so they return the task as they
    leave it. *)
Class FreezerOps (task_struct : Type) : Type := {
  frozen : task_struct -> bool;
  freezing : task_struct -> bool;
  task_is_stopped_or_traced : task_struct -> bool;
  freezer_should_skip : task_struct -> bool;
  freeze_task : task_struct -> bool -> bool * task_struct;
  __thaw_process : task_struct -> Z * task_struct;
  wake_up_process : task_struct -> task_struct
}.

Section Freezer.

Context {task_struct : Type} `{FreezerOps task_struct}.

(** What the code does outside its own data, in program order. *)
Inductive event : Type :=
| EvTaskLock (task : task_struct)
| EvTaskUnlock (task : task_struct)
| EvSpinLockIrq
| EvSpinUnlockIrq
| EvCgroupLock
| EvCgroupUnlock
| EvIterStart
| EvIterEnd
| EvSetState (s : freezer_state)
| EvFreezeTask (task : task_struct) (sig_only : bool)
| EvThawProcess (task : task_struct)
| EvWakeUpProcess (task : task_struct).

(** A group as the freezer sees it: [freezer->state], the tasks the cgroup
    iterator enumerates, and whether the cgroup has been removed. *)
Record cgroup_sys : Type := mkSys {
  state : freezer_state;
  tasks : list task_struct;
  removed : bool
}.

Definition with_state (s : freezer_state) (st : cgroup_sys) : cgroup_sys :=
  mkSys s (tasks st) (removed st).

Definition with_tasks (ts : list task_struct) (st : cgroup_sys) : cgroup_sys :=
  mkSys (state st) ts (removed st).

(** State passing with an event log. *)
Definition M (A : Type) : Type := cgroup_sys -> A * cgroup_sys * list event.

Definition ret {A} (a : A) : M A := fun st => (a, st, []).

Definition bind {A B} (m : M A) (k : A -> M B) : M B :=
  fun st =>
    let '(a, st1, e1) := m st in
    let '(b, st2, e2) := k a st1 in
    (b, st2, e1 ++ e2).

Notation "x <- c1 ;; c2" := (bind c1 (fun x => c2))
  (at level 61, c1 at next level, right associativity).
Notation "c1 ;; c2" := (bind c1 (fun _ => c2))
  (at level 61, right associativity).

Definition emit (e : event) : M unit := fun st => (tt, st, [e]).

Definition get_state : M freezer_state := fun st => (state st, st, []).

(** [freezer->state = s;] *)
Definition set_state (s : freezer_state) : M unit :=
  fun st => (tt, with_state s st, [EvSetState s]).

(** [cgroup_iter_start] ... [while ((task = cgroup_iter_next(...)))]: the
    body runs once per task of the group, in the iterator's order, on the
    task and the loop's local variables. *)
Fixpoint iter_tasks {A} (body : task_struct -> A -> task_struct * A * list event)
    (ts : list task_struct) (a : A) : list task_struct * A * list event :=
  match ts with
  | [] => ([], a, [])
  | task :: rest =>
      let '(task', a1, e1) := body task a in
      let '(rest', a2, e2) := iter_tasks body rest a1 in
      (task' :: rest', a2, e1 ++ e2)
  end.

Definition cgroup_iter {A} (body : task_struct -> A -> task_struct * A * list event)
    (a : A) : M A :=
  fun st =>
    let '(ts', a', e) := iter_tasks body (tasks st) a in
    (a', with_tasks ts' st, e).

(** [cgroup_lock_live_group]: takes the cgroup mutex, and gives it back at
    once, answering false, when the group has been removed. *)
Definition cgroup_lock_live_group : M bool :=
  fun st =>
    if removed st then (false, st, [EvCgroupLock; EvCgroupUnlock])
    else (true, st, [EvCgroupLock]).

(** ** The functions of the file *)

(** [cgroup_frozen] *)
Definition cgroup_frozen (task : task_struct) : M bool :=
  emit (EvTaskLock task) ;;
  s <- get_state ;;
  emit (EvTaskUnlock task) ;;
  ret (freezer_state_eqb s STATE_FROZEN).

(** [freezer_create]: [None] is [ERR_PTR(-ENOMEM)]. *)
Definition freezer_create (kzalloc_ok : bool) : option freezer_state :=
  if kzalloc_ok then Some STATE_RUNNING else None.

(** [freezer_can_attach] *)
Definition freezer_can_attach (task : task_struct) : M Z :=
  s <- get_state ;;
  ret (if freezer_state_eqb s STATE_FROZEN then - EBUSY else 0).

(** The body of the loop of [check_if_frozen], on [(nfrozen, ntotal)]. *)
Definition check_if_frozen_body (task : task_struct) (c : Z * Z)
    : task_struct * (Z * Z) * list event :=
  let '(nfrozen, ntotal) := c in
  let ntotal := u32 (ntotal + 1) in
  if frozen task || (task_is_stopped_or_traced task && freezing task)
  then (task, (u32 (nfrozen + 1), ntotal), [])
  else (task, (nfrozen, ntotal), []).

(** [check_if_frozen] *)
Definition check_if_frozen : M unit :=
  emit EvIterStart ;;
  c <- cgroup_iter check_if_frozen_body (0, 0) ;;
  (if fst c =? snd c then set_state STATE_FROZEN else ret tt) ;;
  emit EvIterEnd.

(** [freezer_read]: the result and the seq_file after [seq_puts] and
    [seq_putc]. *)
Definition freezer_read (m : string) : M (Z * string) :=
  live <- cgroup_lock_live_group ;;
  if negb live then ret (- ENODEV, m)
  else
    emit EvSpinLockIrq ;;
    s <- get_state ;;
    s <- (if freezer_state_eqb s STATE_FREEZING
          then check_if_frozen ;; get_state
          else ret s) ;;
    emit EvSpinUnlockIrq ;;
    emit EvCgroupUnlock ;;
    ret (0, (m ++ freezer_state_strs s ++ String "010" EmptyString)%string).

(** The body of the loop of [try_to_freeze_cgroup], on
    [num_cant_freeze_now]. *)
Definition try_to_freeze_body (task : task_struct) (num_cant_freeze_now : Z)
    : task_struct * Z * list event :=
  let '(ok, task') := freeze_task task true in
  let n :=
    if negb ok then num_cant_freeze_now
    else if task_is_stopped_or_traced task' && freezing task'
    then num_cant_freeze_now
    else if negb (freezing task') && negb (freezer_should_skip task')
    then u32 (num_cant_freeze_now + 1)
    else num_cant_freeze_now in
  (task', n, [EvFreezeTask task true]).

(** [try_to_freeze_cgroup] *)
Definition try_to_freeze_cgroup : M Z :=
  set_state STATE_FREEZING ;;
  emit EvIterStart ;;
  num_cant_freeze_now <- cgroup_iter try_to_freeze_body 0 ;;
  emit EvIterEnd ;;
  ret (if num_cant_freeze_now =? 0 then 0 else - EBUSY).

(** The body of the loop of [unfreeze_cgroup]. *)
Definition unfreeze_body (task : task_struct) (_ : unit)
    : task_struct * unit * list event :=
  let '(do_wake, task') := __thaw_process task in
  if do_wake =? 0
  then (task', tt, [EvTaskLock task; EvThawProcess task; EvTaskUnlock task'])
  else (wake_up_process task', tt,
        [EvTaskLock task; EvThawProcess task; EvTaskUnlock task';
         EvWakeUpProcess task']).

(** [unfreeze_cgroup] *)
Definition unfreeze_cgroup : M Z :=
  emit EvIterStart ;;
  cgroup_iter unfreeze_body tt ;;
  emit EvIterEnd ;;
  set_state STATE_RUNNING ;;
  ret 0.

(** [freezer_change_state] *)
Definition freezer_change_state (goal_state : freezer_state) : M Z :=
  emit EvSpinLockIrq ;;
  check_if_frozen ;;
  s <- get_state ;;
  retval <-
    (if freezer_state_eqb goal_state s then ret 0
     else match s with
          | STATE_RUNNING => try_to_freeze_cgroup
          | STATE_FREEZING =>
              if freezer_state_eqb goal_state STATE_FROZEN
              then try_to_freeze_cgroup
              else unfreeze_cgroup
          | STATE_FROZEN => unfreeze_cgroup
          end) ;;
  emit EvSpinUnlockIrq ;;
  ret retval.

(** [freezer_write] *)
Definition freezer_write (buffer : string) : M Z :=
  let go (goal_state : freezer_state) : M Z :=
    live <- cgroup_lock_live_group ;;
    if negb live then ret (- ENODEV)
    else
      retval <- freezer_change_state goal_state ;;
      emit EvCgroupUnlock ;;
      ret retval in
  if strcmp buffer (freezer_state_strs STATE_RUNNING) =? 0
  then go STATE_RUNNING
  else if strcmp buffer (freezer_state_strs STATE_FROZEN) =? 0
  then go STATE_FROZEN
  else ret (- EIO).

(** [freezer_fork]: [BUG_ON] stops the kernel; [Bug] keeps what had
    happened by then. *)
Inductive outcome (A : Type) : Type :=
| Done (a : A) (st : cgroup_sys) (evs : list event)
| Bug (st : cgroup_sys) (evs : list event).
Arguments Done {A} a st evs.
Arguments Bug {A} st evs.

Definition freezer_fork (task : task_struct) (st : cgroup_sys)
    : outcome task_struct :=
  let e0 := [EvTaskLock task; EvTaskUnlock task] in
  if freezer_state_eqb (state st) STATE_FROZEN then Bug st e0
  else if freezer_state_eqb (state st) STATE_FREEZING
  then let '(_, task') := freeze_task task true in
       Done task' st (e0 ++ [EvSpinLockIrq; EvFreezeTask task true; EvSpinUnlockIrq])
  else Done task st (e0 ++ [EvSpinLockIrq; EvSpinUnlockIrq]).

(** ** Vocabulary of the properties *)

(** A task that counts as frozen in the convergence scan: frozen now, or
    stopped or traced with the freeze request pending. *)
Definition frozen_enough (task : task_struct) : bool :=
  frozen task || (task_is_stopped_or_traced task && freezing task).

(** A task that blocks a freeze attempt: the request was made (it was not
    answered as already satisfied), and after it the task is neither
    stopped or traced with the request pending, nor freezing, nor marked
    to be skipped. *)
Definition cant_freeze_now (task : task_struct) : bool :=
  let '(ok, task') := freeze_task task true in
  ok && negb (task_is_stopped_or_traced task' && freezing task')
     && negb (freezing task') && negb (freezer_should_skip task').

(** Pause and resume requests among the events. *)
Definition is_pause_or_resume (e : event) : bool :=
  match e with
  | EvFreezeTask _ _ | EvThawProcess _ | EvWakeUpProcess _ => true
  | _ => false
  end.

Definition is_thaw (e : event) : bool :=
  match e with EvThawProcess _ => true | _ => false end.

Definition is_scan_start (e : event) : bool :=
  match e with EvIterStart => true | _ => false end.

(** The values written to [freezer->state], in order. *)
Fixpoint state_writes (evs : list event) : list freezer_state :=
  match evs with
  | [] => []
  | EvSetState s :: r => s :: state_writes r
  | _ :: r => state_writes r
  end.

(** The edges of the state diagram at the head of the file. *)
Definition edge (a b : freezer_state) : bool :=
  match a, b with
  | STATE_RUNNING, STATE_FREEZING
  | STATE_FREEZING, STATE_FROZEN
  | STATE_FREEZING, STATE_RUNNING
  | STATE_FROZEN, STATE_RUNNING => true
  | _, _ => false
  end.

(** A history of states in which every change of value is an edge. *)
Fixpoint along_edges (from : freezer_state) (ws : list freezer_state) : bool :=
  match ws with
  | [] => true
  | w :: r => (freezer_state_eqb from w || edge from w) && along_edges w r
  end.

(** A task after the pause request of a freeze attempt. *)
Definition pause_one (task : task_struct) : task_struct :=
  snd (freeze_task task true).

(** A task after the thaw pass, and what the pass does for it. *)
Definition thaw_one (task : task_struct) : task_struct :=
  let '(do_wake, task') := __thaw_process task in
  if do_wake =? 0 then task' else wake_up_process task'.

Definition thaw_events (task : task_struct) : list event :=
  let '(do_wake, task') := __thaw_process task in
  [EvTaskLock task; EvThawProcess task; EvTaskUnlock task']
  ++ (if do_wake =? 0 then [] else [EvWakeUpProcess task']).

(** What [check_if_frozen] returns when its two counters compare as [b]. *)
Definition check_result (b : bool) (st : cgroup_sys)
    : unit * cgroup_sys * list event :=
  (tt,
   if b then with_state STATE_FROZEN st else st,
   EvIterStart :: (if b then [EvSetState STATE_FROZEN] else []) ++ [EvIterEnd]).

(** The cached state agrees with the tasks: a group recorded as frozen has
    only tasks that are frozen enough (and their number fits the counters
    of the scans). *)
Definition coherent (st : cgroup_sys) : Prop :=
  Z.of_nat (List.length (tasks st)) <= UINT_MAX /\
  (state st = STATE_FROZEN -> forallb frozen_enough (tasks st) = true).

(** The events of a call of [freezer_fork], and whether it hit [BUG_ON]. *)
Definition outcome_events {A} (o : outcome A) : list event :=
  match o with Done _ _ evs => evs | Bug _ evs => evs end.

Definition is_bug {A} (o : outcome A) : bool :=
  match o with Done _ _ _ => false | Bug _ _ => true end.

Definition is_freeze_request (e : event) : bool :=
  match e with EvFreezeTask _ _ => true | _ => false end.

Definition is_spin_lock (e : event) : bool :=
  match e with EvSpinLockIrq => true | _ => false end.

(** The goal a written token asks for, in the spec's words: the literal
    [RUNNING] or [FROZEN], nothing else. *)
Definition goal_of_token (token : string) : option freezer_state :=
  if String.eqb token "RUNNING" then Some STATE_RUNNING
  else if String.eqb token "FROZEN" then Some STATE_FROZEN
  else None.

(** ** Vocabulary of the further properties *)

(** How the two counters of [check_if_frozen] compare after the scan of
    [ts], and what [try_to_freeze_cgroup] returns after its scan. *)
Definition check_verdict (ts : list task_struct) : bool :=
  let c := snd (fst (iter_tasks check_if_frozen_body ts (0, 0))) in
  fst c =? snd c.

Definition freeze_verdict (ts : list task_struct) : Z :=
  if snd (fst (iter_tasks try_to_freeze_body ts 0)) =? 0 then 0 else - EBUSY.

(** The events of a freeze pass and of a thaw pass over [ts]. *)
Definition freeze_pass_events (ts : list task_struct) : list event :=
  EvSetState STATE_FREEZING :: EvIterStart ::
    map (fun task => EvFreezeTask task true) ts ++ [EvIterEnd].

Definition thaw_pass_events (ts : list task_struct) : list event :=
  EvIterStart :: flat_map thaw_events ts ++ [EvIterEnd; EvSetState STATE_RUNNING].

(** The tasks a thaw pass wakes: those for which [__thaw_process] answers
    non-zero, as [__thaw_process] leaves them. *)
Definition woken (ts : list task_struct) : list task_struct :=
  map (fun task => snd (__thaw_process task))
    (filter (fun task => negb (fst (__thaw_process task) =? 0)) ts).

Definition is_wake (e : event) : bool :=
  match e with EvWakeUpProcess _ => true | _ => false end.

(** The locks of the file, from the outermost to the innermost as the
    code nests them: the cgroup mutex, [freezer->lock], the css_set lock
    held between [cgroup_iter_start] and [cgroup_iter_end], and the task
    lock. *)
Inductive lock : Type := LCgroup | LFreezer | LCssSet | LTask.

Definition lock_level (l : lock) : nat :=
  match l with LCgroup => 1 | LFreezer => 2 | LCssSet => 3 | LTask => 4 end.

Definition lock_eqb (a b : lock) : bool :=
  Nat.eqb (lock_level a) (lock_level b).

Definition acquire (l : lock) (held : list lock) : option (list lock) :=
  if forallb (fun h => Nat.ltb (lock_level h) (lock_level l)) held
  then Some (l :: held) else None.

Definition release (l : lock) (held : list lock) : option (list lock) :=
  match held with
  | h :: rest => if lock_eqb h l then Some rest else None
  | [] => None
  end.

Definition holds (l : lock) (held : list lock) : bool :=
  existsb (lock_eqb l) held.

(** One event against the locks held: a lock is taken only inside those
    of lower level and released innermost first; [freezer->state] is
    written and [freeze_task] called only under [freezer->lock];
    [__thaw_process] is called only under the task lock. *)
Definition lock_step (e : event) (held : list lock) : option (list lock) :=
  match e with
  | EvCgroupLock => acquire LCgroup held
  | EvCgroupUnlock => release LCgroup held
  | EvSpinLockIrq => acquire LFreezer held
  | EvSpinUnlockIrq => release LFreezer held
  | EvIterStart => acquire LCssSet held
  | EvIterEnd => release LCssSet held
  | EvTaskLock _ => acquire LTask held
  | EvTaskUnlock _ => release LTask held
  | EvSetState _ | EvFreezeTask _ _ =>
      if holds LFreezer held then Some held else None
  | EvThawProcess _ => if holds LTask held then Some held else None
  | EvWakeUpProcess _ => Some held
  end.

Fixpoint lock_run (evs : list event) (held : list lock) : option (list lock) :=
  match evs with
  | [] => Some held
  | e :: rest =>
      match lock_step e held with
      | Some held' => lock_run rest held'
      | None => None
      end
  end.

(** [freezer_change_state] in terms of the two verdicts. *)
Definition change_state_result (goal_state : freezer_state) (st : cgroup_sys)
    : Z * cgroup_sys * list event :=
  let b := check_verdict (tasks st) in
  let s1 := if b then STATE_FROZEN else state st in
  let e1 := EvIterStart :: (if b then [EvSetState STATE_FROZEN] else [])
              ++ [EvIterEnd] in
  if freezer_state_eqb goal_state s1
  then (0, with_state s1 st, EvSpinLockIrq :: e1 ++ [EvSpinUnlockIrq])
  else if match s1 with
          | STATE_RUNNING => true
          | STATE_FREEZING => freezer_state_eqb goal_state STATE_FROZEN
          | STATE_FROZEN => false
          end
  then (freeze_verdict (tasks st),
        mkSys STATE_FREEZING (map pause_one (tasks st)) (removed st),
        EvSpinLockIrq :: e1 ++ freeze_pass_events (tasks st) ++ [EvSpinUnlockIrq])
  else (0, mkSys STATE_RUNNING (map thaw_one (tasks st)) (removed st),
        EvSpinLockIrq :: e1 ++ thaw_pass_events (tasks st) ++ [EvSpinUnlockIrq]).

(** [freezer_write] once the token is parsed. *)
Definition write_goal_result (goal_state : freezer_state) (st : cgroup_sys)
    : Z * cgroup_sys * list event :=
  if removed st then (- ENODEV, st, [EvCgroupLock; EvCgroupUnlock])
  else let '(retval, st', e) := change_state_result goal_state st in
       (retval, st', EvCgroupLock :: e ++ [EvCgroupUnlock]).

(** [unfreeze_cgroup] up to [cgroup_iter_end]: the scan that thaws and
    wakes the tasks, before [freezer->state = STATE_RUNNING] is stored. *)
Definition unfreeze_cgroup_scan : M unit :=
  emit EvIterStart ;;
  cgroup_iter unfreeze_body tt ;;
  emit EvIterEnd.

(** ** A group over time

    The operations that reach a group: reads and writes of its state
    file, a task attached after [freezer_can_attach] allowed it, a task
    forked inside the group and run through [freezer_fork], a task
    leaving, and the removal of the empty group.  The number of tasks
    stays within an [unsigned int]. *)
Fixpoint remove_nth {A} (i : nat) (l : list A) : list A :=
  match i, l with
  | _, [] => []
  | O, _ :: r => r
  | S j, x :: r => x :: remove_nth j r
  end.

Inductive step (st : cgroup_sys) : cgroup_sys -> Prop :=
| step_read m r st' evs :
    freezer_read m st = (r, st', evs) -> step st st'
| step_write buffer r st' evs :
    freezer_write buffer st = (r, st', evs) -> step st st'
| step_attach task st' evs :
    freezer_can_attach task st = (0, st', evs) ->
    Z.of_nat (List.length (tasks st)) < UINT_MAX ->
    step st (with_tasks (task :: tasks st') st')
| step_fork task task' st' evs :
    freezer_fork task st = Done task' st' evs ->
    Z.of_nat (List.length (tasks st)) < UINT_MAX ->
    step st (with_tasks (task' :: tasks st') st')
| step_exit i :
    step st (with_tasks (remove_nth i (tasks st)) st)
| step_rmdir :
    tasks st = [] -> step st (mkSys (state st) [] true).

Inductive reachable : cgroup_sys -> Prop :=
| reach_create s ts :
    freezer_create true = Some s ->
    Z.of_nat (List.length ts) <= UINT_MAX ->
    reachable (mkSys s ts false)
| reach_step st st' :
    reachable st -> step st st' -> reachable st'.

End Freezer.

Arguments event task_struct : clear implicits.
Arguments cgroup_sys task_struct : clear implicits.
Arguments outcome task_struct A : clear implicits.
Arguments Done {task_struct A} a st evs.
Arguments Bug {task_struct A} st evs.

(** ** A pause protocol to run the code on

    Modelled from the spec: the pause protocol adapter of section 4.3
    (request pause, query paused, stopped awaiting pause, request resume
    and wake), which stands for the task freezer that is not among the
    sources.  A member is paused or not, may have a pause pending, may be
    stopped or traced, may be marked to be skipped, and may decline pause
    requests. *)
Module Adapter.

Record member : Type := mkMember {
  paused : bool;
  pause_pending : bool;
  stopped : bool;
  skip : bool;
  declines : bool
}.

(** requestPause: already paused, declined, or requested. *)
Definition request_pause (m : member) (sig_only : bool) : bool * member :=
  if paused m then (false, m)
  else if declines m then (true, m)
  else (true, mkMember false true (stopped m) (skip m) (declines m)).

(** requestResume: a paused member resumes and is to be woken; for any
    other member the pending request is dropped. *)
Definition request_resume (m : member) : Z * member :=
  if paused m
  then (1, mkMember false (pause_pending m) (stopped m) (skip m) (declines m))
  else (0, mkMember false false (stopped m) (skip m) (declines m)).

#[export] Instance member_ops : FreezerOps member := {
  frozen := paused;
  freezing := pause_pending;
  task_is_stopped_or_traced := stopped;
  freezer_should_skip := skip;
  freeze_task := request_pause;
  __thaw_process := request_resume;
  wake_up_process := fun m => m
}.

(** A running member, a paused one, one that declines, and a stopped one
    with the pause pending. *)
Definition runner : member := mkMember false false false false false.
Definition sleeper : member := mkMember true false false false false.
Definition stubborn : member := mkMember false false false false true.
Definition stopped_pending : member := mkMember false true true false false.

End Adapter.

(** Groups of such members. *)
Module Sample.
Import Adapter.


(** A running group whose only member is stopped; the same group after a
    freeze request has reached the member; and once recorded as frozen. *)
Definition halted : cgroup_sys member :=
  mkSys STATE_RUNNING [mkMember false false true false false] false.


Definition frozen_group : cgroup_sys member :=
  mkSys STATE_FROZEN [stopped_pending] false.

(** A freezing group with a member that is still running. *)
Definition freezing_group : cgroup_sys member :=
  mkSys STATE_FREEZING [sleeper; runner] false.

(** A running group of three, one of which declines to pause. *)
Definition busy_group : cgroup_sys member :=
  mkSys STATE_RUNNING [runner; stubborn; sleeper] false.

(** A running group with one running member. *)
Definition running_group : cgroup_sys member :=
  mkSys STATE_RUNNING [runner] false.

(** A running group with one paused member. *)
Definition running_paused : cgroup_sys member :=
  mkSys STATE_RUNNING [sleeper] false.

(** A running group with a paused member and a stopped one; the same
    group after a freeze request has reached both; and once a read has
    recorded it as frozen. *)
Definition mixed : cgroup_sys member :=
  mkSys STATE_RUNNING [sleeper; mkMember false false true false false] false.

Definition mixed_freezing : cgroup_sys member :=
  mkSys STATE_FREEZING [sleeper; stopped_pending] false.

Definition mixed_frozen : cgroup_sys member :=
  mkSys STATE_FROZEN [sleeper; stopped_pending] false.

End Sample.

(** ** Properties *)

Section FreezerTheory.

Context {task_struct : Type} `{FreezerOps task_struct}.

Implicit Types (st : cgroup_sys task_struct) (task : task_struct)
  (ts : list task_struct).

Lemma freezer_state_eqb_spec a b :
  reflect (a = b) (freezer_state_eqb a b).
Proof. destruct a, b; simpl; constructor; congruence. Qed.

Lemma freezer_state_eqb_refl a : freezer_state_eqb a a = true.
Proof. now destruct a. Qed.

Lemma with_tasks_same st : with_tasks (tasks st) st = st.
Proof. now destruct st. Qed.

Lemma with_state_same st : with_state (state st) st = st.
Proof. now destruct st. Qed.

Lemma filter_length_le {A} (f : A -> bool) (l : list A) :
  (List.length (filter f l) <= List.length l)%nat.
Proof.
  induction l as [|x l IH]; simpl; [lia|].
  destruct (f x); simpl; lia.
Qed.

Lemma filter_length_all {A} (f : A -> bool) (l : list A) :
  List.length (filter f l) = List.length l <-> forallb f l = true.
Proof.
  induction l as [|x l IH]; simpl; [tauto|].
  pose proof (filter_length_le f l) as Hle.
  destruct (f x); simpl.
  - rewrite <- IH. split; intros E; lia.
  - split; [intros E; lia | discriminate].
Qed.

Lemma u32_small z : 0 <= z <= UINT_MAX -> u32 z = z.
Proof. unfold u32, UINT_MAX. intros Hz. apply Z.mod_small. lia. Qed.

(** The scan of [check_if_frozen] leaves the tasks as they are and counts,
    without wrapping, the tasks and those among them that are frozen
    enough. *)
Lemma check_scan ts : forall nfrozen ntotal,
  0 <= nfrozen <= ntotal ->
  ntotal + Z.of_nat (List.length ts) <= UINT_MAX ->
  iter_tasks check_if_frozen_body ts (nfrozen, ntotal)
  = (ts, (nfrozen + Z.of_nat (List.length (filter frozen_enough ts)),
          ntotal + Z.of_nat (List.length ts)), []).
Proof.
  induction ts as [|task rest IH]; intros nfrozen ntotal Hn Hb.
  - simpl. now rewrite !Z.add_0_r.
  - cbn [iter_tasks check_if_frozen_body filter].
    change (List.length (task :: rest)) with (S (List.length rest)) in *.
    fold (frozen_enough task).
    rewrite (u32_small (ntotal + 1)) by lia.
    destruct (frozen_enough task).
    + rewrite (u32_small (nfrozen + 1)) by lia.
      rewrite IH by lia. simpl List.length. do 3 f_equal; lia.
    + rewrite IH by lia. do 3 f_equal; lia.
Qed.

Lemma check_scan_frame ts : forall c,
  exists c', iter_tasks check_if_frozen_body ts c = (ts, c', []).
Proof.
  induction ts as [|task rest IH]; intros c; [now exists c|].
  cbn [iter_tasks]. unfold check_if_frozen_body at 1. destruct c as [nfrozen ntotal].
  destruct (frozen task || (task_is_stopped_or_traced task && freezing task)).
  - destruct (IH (u32 (nfrozen + 1), u32 (ntotal + 1))) as [c' E].
    rewrite E. now exists c'.
  - destruct (IH (nfrozen, u32 (ntotal + 1))) as [c' E].
    rewrite E. now exists c'.
Qed.

(** [check_if_frozen] never touches the tasks and writes, if anything,
    [STATE_FROZEN]. *)
Lemma check_if_frozen_shape st :
  exists b, check_if_frozen st = check_result b st.
Proof.
  unfold check_if_frozen, check_result, bind, emit, cgroup_iter.
  destruct (check_scan_frame (tasks st) (0, 0)) as [c' E]. rewrite E.
  rewrite with_tasks_same.
  exists (fst c' =? snd c'). now destruct (fst c' =? snd c').
Qed.

(** [check_if_frozen] in closed form. *)
Lemma check_if_frozen_eq st :
  Z.of_nat (List.length (tasks st)) <= UINT_MAX ->
  check_if_frozen st = check_result (forallb frozen_enough (tasks st)) st.
Proof.
  intros Hb. unfold check_if_frozen, check_result, bind, emit, cgroup_iter.
  rewrite check_scan by lia. cbn [fst snd].
  rewrite with_tasks_same, !Z.add_0_l.
  pose proof (filter_length_all frozen_enough (tasks st)) as Hall.
  destruct (forallb frozen_enough (tasks st)).
  - assert (E : List.length (filter frozen_enough (tasks st)) = List.length (tasks st))
      by now apply Hall.
    rewrite E, Z.eqb_refl. reflexivity.
  - destruct (Z.eqb_spec (Z.of_nat (List.length (filter frozen_enough (tasks st))))
                (Z.of_nat (List.length (tasks st)))) as [E|E].
    + apply Nat2Z.inj in E. apply Hall in E. discriminate.
    + reflexivity.
Qed.

Lemma filter_length_none {A} (f : A -> bool) (l : list A) :
  List.length (filter f l) = 0%nat <-> existsb f l = false.
Proof.
  induction l as [|x l IH]; simpl; [tauto|].
  destruct (f x); simpl; [split; discriminate | exact IH].
Qed.

Lemma try_to_freeze_body_eq task n :
  try_to_freeze_body task n
  = (pause_one task, if cant_freeze_now task then u32 (n + 1) else n,
     [EvFreezeTask task true]).
Proof.
  unfold try_to_freeze_body, cant_freeze_now, pause_one.
  destruct (freeze_task task true) as [ok task']. cbn [snd].
  destruct ok, (task_is_stopped_or_traced task'), (freezing task'),
    (freezer_should_skip task'); reflexivity.
Qed.

(** The scan of [try_to_freeze_cgroup] asks every task once, in order, and
    counts, without wrapping, those that block. *)
Lemma freeze_scan ts : forall n,
  0 <= n -> n + Z.of_nat (List.length ts) <= UINT_MAX ->
  iter_tasks try_to_freeze_body ts n
  = (map pause_one ts,
     n + Z.of_nat (List.length (filter cant_freeze_now ts)),
     map (fun task => EvFreezeTask task true) ts).
Proof.
  induction ts as [|task rest IH]; intros n Hn Hb.
  - simpl. now rewrite Z.add_0_r.
  - cbn [iter_tasks filter map]. rewrite try_to_freeze_body_eq.
    change (List.length (task :: rest)) with (S (List.length rest)) in Hb.
    destruct (cant_freeze_now task).
    + rewrite (u32_small (n + 1)) by lia.
      rewrite IH by lia. simpl List.length.
      replace (n + 1 + Z.of_nat (List.length (filter cant_freeze_now rest)))
        with (n + Z.of_nat (S (List.length (filter cant_freeze_now rest)))) by lia.
      reflexivity.
    + rewrite IH by lia. reflexivity.
Qed.

(** [try_to_freeze_cgroup] in closed form. *)
Lemma try_to_freeze_cgroup_eq st :
  Z.of_nat (List.length (tasks st)) <= UINT_MAX ->
  try_to_freeze_cgroup st
  = (if existsb cant_freeze_now (tasks st) then - EBUSY else 0,
     mkSys STATE_FREEZING (map pause_one (tasks st)) (removed st),
     EvSetState STATE_FREEZING :: EvIterStart ::
       map (fun task => EvFreezeTask task true) (tasks st) ++ [EvIterEnd]).
Proof.
  intros Hb. unfold try_to_freeze_cgroup, bind, set_state, emit, cgroup_iter, ret.
  cbn [with_state tasks]. rewrite freeze_scan by lia.
  rewrite Z.add_0_l, app_nil_r. cbn [with_tasks state removed app].
  pose proof (filter_length_none cant_freeze_now (tasks st)) as Hnone.
  destruct (existsb cant_freeze_now (tasks st)).
  - destruct (Z.eqb_spec (Z.of_nat (List.length (filter cant_freeze_now (tasks st)))) 0)
      as [E|E]; [|reflexivity].
    change 0 with (Z.of_nat 0) in E. apply Nat2Z.inj in E.
    apply Hnone in E. discriminate.
  - assert (E : List.length (filter cant_freeze_now (tasks st)) = 0%nat)
      by now apply Hnone.
    rewrite E. reflexivity.
Qed.

Lemma unfreeze_body_eq task u :
  unfreeze_body task u = (thaw_one task, tt, thaw_events task).
Proof.
  unfold unfreeze_body, thaw_one, thaw_events.
  destruct (__thaw_process task) as [do_wake task'].
  destruct (do_wake =? 0); reflexivity.
Qed.

Lemma thaw_scan ts : forall u,
  iter_tasks unfreeze_body ts u = (map thaw_one ts, tt, flat_map thaw_events ts).
Proof.
  induction ts as [|task rest IH]; intros u; [now destruct u|].
  cbn [iter_tasks map flat_map]. rewrite unfreeze_body_eq, IH. reflexivity.
Qed.

(** [unfreeze_cgroup] in closed form. *)
Lemma unfreeze_cgroup_eq st :
  unfreeze_cgroup st
  = (0, mkSys STATE_RUNNING (map thaw_one (tasks st)) (removed st),
     EvIterStart :: flat_map thaw_events (tasks st)
       ++ [EvIterEnd; EvSetState STATE_RUNNING]).
Proof.
  unfold unfreeze_cgroup, bind, set_state, emit, cgroup_iter, ret.
  rewrite thaw_scan. reflexivity.
Qed.

(** The thaw requests of a thaw pass: one per task, in order. *)
Lemma thaw_events_requests ts :
  filter is_thaw (flat_map thaw_events ts) = map EvThawProcess ts.
Proof.
  induction ts as [|task rest IH]; [reflexivity|].
  cbn [flat_map map]. rewrite filter_app, IH. f_equal.
  unfold thaw_events. destruct (__thaw_process task) as [do_wake task'].
  destruct (do_wake =? 0); reflexivity.
Qed.

(** [freezer_change_state], one call at a time. *)
Lemma freezer_change_state_unfold goal_state st :
  freezer_change_state goal_state st
  = let '(_, st1, e1) := check_if_frozen st in
    let '(retval, st2, e2) :=
      (if freezer_state_eqb goal_state (state st1) then ret 0
       else match state st1 with
            | STATE_RUNNING => try_to_freeze_cgroup
            | STATE_FREEZING =>
                if freezer_state_eqb goal_state STATE_FROZEN
                then try_to_freeze_cgroup else unfreeze_cgroup
            | STATE_FROZEN => unfreeze_cgroup
            end) st1 in
    (retval, st2, EvSpinLockIrq :: e1 ++ e2 ++ [EvSpinUnlockIrq]).
Proof.
  unfold freezer_change_state, bind, emit, get_state.
  destruct (check_if_frozen st) as [[u st1] e1].
  match goal with |- context [?b st1] =>
    match type of (b st1) with (Z * _ * _)%type =>
      destruct (b st1) as [[retval st2] e2] end end.
  reflexivity.
Qed.



Lemma forallb_remove_nth {A} (f : A -> bool) (l : list A) : forall i,
  forallb f l = true -> forallb f (remove_nth i l) = true.
Proof.
  induction l as [|x l IH]; intros i Hl; destruct i; simpl in *; try reflexivity.
  - apply andb_true_iff in Hl. tauto.
  - apply andb_true_iff in Hl. destruct Hl as [Hx Hl].
    rewrite Hx. simpl. now apply IH.
Qed.

Lemma length_remove_nth {A} (l : list A) : forall i,
  (List.length (remove_nth i l) <= List.length l)%nat.
Proof.
  induction l as [|x l IH]; intros i; destruct i; simpl; try lia.
  specialize (IH i). lia.
Qed.

(** *** The cached state stays coherent with the tasks *)

Lemma coherent_not_frozen s ts rm :
  Z.of_nat (List.length ts) <= UINT_MAX -> s <> STATE_FROZEN ->
  coherent (mkSys s ts rm).
Proof. intros Hb Hs. split; [exact Hb | intros E; now elim Hs]. Qed.

Lemma check_if_frozen_coherent st u st' evs :
  coherent st -> check_if_frozen st = (u, st', evs) -> coherent st'.
Proof.
  intros [Hb Hf] E. rewrite check_if_frozen_eq in E by exact Hb.
  unfold check_result in E.
  destruct (forallb frozen_enough (tasks st)) eqn:Hall;
    injection E as _ <- _; split; cbn [with_state tasks state]; auto.
  intros Es. rewrite Hall. auto.
Qed.

Lemma freezer_change_state_coherent goal_state st retval st' evs :
  coherent st -> freezer_change_state goal_state st = (retval, st', evs) ->
  coherent st'.
Proof.
  intros [Hb Hf] E. rewrite freezer_change_state_unfold in E.
  rewrite check_if_frozen_eq in E by exact Hb. unfold check_result in E.
  assert (Hthaw : forall st1, tasks st1 = tasks st ->
            coherent (snd (fst (unfreeze_cgroup st1)))).
  { intros st1 Ht. rewrite unfreeze_cgroup_eq. cbn [fst snd].
    apply coherent_not_frozen; [|discriminate].
    now rewrite length_map, Ht. }
  assert (Hfreeze : forall st1, tasks st1 = tasks st ->
            coherent (snd (fst (try_to_freeze_cgroup st1)))).
  { intros st1 Ht. rewrite try_to_freeze_cgroup_eq by now rewrite Ht.
    cbn [fst snd]. apply coherent_not_frozen; [|discriminate].
    now rewrite length_map, Ht. }
  destruct (forallb frozen_enough (tasks st)) eqn:Hall.
  - cbn [with_state state] in E.
    destruct goal_state; cbn [freezer_state_eqb] in E.
    + specialize (Hthaw (with_state STATE_FROZEN st) eq_refl).
      destruct (unfreeze_cgroup _) as [[r st2] e2]. now injection E as _ <- _.
    + specialize (Hthaw (with_state STATE_FROZEN st) eq_refl).
      destruct (unfreeze_cgroup _) as [[r st2] e2]. now injection E as _ <- _.
    + unfold ret in E. injection E as _ <- _. split; auto.
  - destruct (freezer_state_eqb goal_state (state st)).
    + unfold ret in E. injection E as _ <- _. split; auto.
      intros Es. rewrite Hall. auto.
    + specialize (Hthaw st eq_refl). specialize (Hfreeze st eq_refl).
      destruct (state st); [| destruct (freezer_state_eqb goal_state STATE_FROZEN) |].
      * destruct (try_to_freeze_cgroup st) as [[r st2] e2]. now injection E as _ <- _.
      * destruct (try_to_freeze_cgroup st) as [[r st2] e2]. now injection E as _ <- _.
      * destruct (unfreeze_cgroup st) as [[r st2] e2]. now injection E as _ <- _.
      * destruct (unfreeze_cgroup st) as [[r st2] e2]. now injection E as _ <- _.
Qed.

(** [freezer_read], one call at a time. *)
Lemma freezer_read_unfold m st :
  freezer_read m st
  = if removed st then (- ENODEV, m, st, [EvCgroupLock; EvCgroupUnlock])
    else
      let '(_, st1, e1) :=
        (if freezer_state_eqb (state st) STATE_FREEZING
         then check_if_frozen st else (tt, st, [])) in
      (0, (m ++ freezer_state_strs (state st1) ++ String "010" EmptyString)%string,
       st1, EvCgroupLock :: EvSpinLockIrq :: e1 ++ [EvSpinUnlockIrq; EvCgroupUnlock]).
Proof.
  unfold freezer_read, bind, cgroup_lock_live_group, emit, get_state, ret.
  destruct (removed st); [reflexivity|]. cbn [negb].
  destruct (freezer_state_eqb (state st) STATE_FREEZING).
  - destruct (check_if_frozen st) as [[u st1] e1]. cbn [app].
    now rewrite !app_nil_r.
  - reflexivity.
Qed.

Lemma freezer_read_coherent m st r st' evs :
  coherent st -> freezer_read m st = (r, st', evs) -> coherent st'.
Proof.
  intros Hc E. rewrite freezer_read_unfold in E.
  destruct (removed st); [now injection E as _ <- _|].
  destruct (freezer_state_eqb (state st) STATE_FREEZING).
  - destruct (check_if_frozen st) as [[u st1] e1] eqn:Ec.
    injection E as _ <- _. eapply check_if_frozen_coherent; eauto.
  - now injection E as _ <- _.
Qed.

(** [freezer_write], one call at a time. *)
Lemma freezer_write_unfold buffer st :
  freezer_write buffer st
  = let go goal_state :=
      if removed st then (- ENODEV, st, [EvCgroupLock; EvCgroupUnlock])
      else let '(retval, st', e) := freezer_change_state goal_state st in
           (retval, st', EvCgroupLock :: e ++ [EvCgroupUnlock]) in
    if strcmp buffer (freezer_state_strs STATE_RUNNING) =? 0
    then go STATE_RUNNING
    else if strcmp buffer (freezer_state_strs STATE_FROZEN) =? 0
    then go STATE_FROZEN
    else (- EIO, st, []).
Proof.
  unfold freezer_write, bind, cgroup_lock_live_group, emit, ret.
  destruct (strcmp buffer (freezer_state_strs STATE_RUNNING) =? 0);
    [|destruct (strcmp buffer (freezer_state_strs STATE_FROZEN) =? 0)];
    try reflexivity;
    (destruct (removed st); [reflexivity|]; cbn [negb];
     destruct (freezer_change_state _ st) as [[retval st'] e]; reflexivity).
Qed.

Lemma freezer_write_coherent buffer st r st' evs :
  coherent st -> freezer_write buffer st = (r, st', evs) -> coherent st'.
Proof.
  intros Hc E. rewrite freezer_write_unfold in E. cbv zeta in E.
  destruct (strcmp buffer (freezer_state_strs STATE_RUNNING) =? 0);
    [|destruct (strcmp buffer (freezer_state_strs STATE_FROZEN) =? 0)];
    try (now injection E as _ <- _);
    (destruct (removed st); [now injection E as _ <- _|];
     destruct (freezer_change_state _ st) as [[retval st1] e] eqn:Ec;
     injection E as _ <- _; eapply freezer_change_state_coherent; eauto).
Qed.

Lemma freezer_fork_cases task st :
  freezer_fork task st
  = match state st with
    | STATE_RUNNING =>
        Done task st [EvTaskLock task; EvTaskUnlock task;
                      EvSpinLockIrq; EvSpinUnlockIrq]
    | STATE_FREEZING =>
        Done (pause_one task) st
          [EvTaskLock task; EvTaskUnlock task;
           EvSpinLockIrq; EvFreezeTask task true; EvSpinUnlockIrq]
    | STATE_FROZEN => Bug st [EvTaskLock task; EvTaskUnlock task]
    end.
Proof.
  unfold freezer_fork, pause_one.
  destruct (state st); cbn [freezer_state_eqb]; try reflexivity.
  now destruct (freeze_task task true).
Qed.

Lemma step_coherent st st' : coherent st -> step st st' -> coherent st'.
Proof.
  intros Hc Hs. destruct Hs as [m r st' evs E | buffer r st' evs E
    | task st' evs E Hlen | task task' st' evs E Hlen | i | Hts].
  - eapply freezer_read_coherent; eauto.
  - eapply freezer_write_coherent; eauto.
  - unfold freezer_can_attach, bind, get_state, ret in E.
    destruct (freezer_state_eqb_spec (state st) STATE_FROZEN) as [Ef|Ef];
      [discriminate|].
    injection E as <- _. apply coherent_not_frozen; [|exact Ef].
    cbn [List.length]. lia.
  - rewrite freezer_fork_cases in E.
    destruct (state st) eqn:Es; try discriminate;
      injection E as _ <- _; (apply coherent_not_frozen; [cbn [List.length]; lia|]);
      rewrite Es; discriminate.
  - destruct Hc as [Hb Hf]. split; cbn [with_tasks tasks state].
    + pose proof (length_remove_nth (tasks st) i). lia.
    + intros Es. apply forallb_remove_nth. auto.
  - split; cbn; [unfold UINT_MAX; lia | reflexivity].
Qed.

(** Every state a group can reach is coherent. *)
Lemma reachable_coherent st : reachable st -> coherent st.
Proof.
  induction 1 as [s ts Hs Hb | st st' _ IH Hstep].
  - unfold freezer_create in Hs. injection Hs as <-.
    apply coherent_not_frozen; [exact Hb | discriminate].
  - eapply step_coherent; eauto.
Qed.

(** *** [strcmp] and the tokens *)

Lemma byte_of_nonneg c : 0 <= byte_of c.
Proof. unfold byte_of. lia. Qed.

Lemma byte_of_inj c1 c2 : byte_of c1 = byte_of c2 -> c1 = c2.
Proof.
  unfold byte_of. intros E. apply N2Z.inj in E.
  rewrite <- (ascii_N_embedding c1), <- (ascii_N_embedding c2). now rewrite E.
Qed.

(** [strcmp] answers 0 exactly on buffers that hold the same C string. *)
Lemma strcmp_0_iff cs : forall ct, strcmp cs ct = 0 <-> c_str cs = c_str ct.
Proof.
  induction cs as [|c1 s1 IH]; intros [|c2 s2]; cbn [strcmp c_str].
  - tauto.
  - pose proof (byte_of_nonneg c2).
    destruct (Z.eqb_spec (byte_of c2) 0); split; intros E;
      try reflexivity; try lia; discriminate.
  - destruct (Z.eqb_spec (byte_of c1) 0); split; intros E;
      try reflexivity; try lia; discriminate.
  - destruct (Z.eqb_spec (byte_of c1) (byte_of c2)) as [E12|E12].
    + rewrite <- E12. apply byte_of_inj in E12. subst c2.
      destruct (Z.eqb_spec (byte_of c1) 0); [tauto|].
      rewrite IH. split; intros E; [now rewrite E | now injection E].
    + split; intros E; [lia|]. exfalso.
      destruct (Z.eqb_spec (byte_of c1) 0), (Z.eqb_spec (byte_of c2) 0);
        try discriminate; try lia.
      injection E as E _. now subst.
Qed.

Lemma goal_of_token_some token :
  goal_of_token token <> None <->
  token = "RUNNING"%string \/ token = "FROZEN"%string.
Proof.
  unfold goal_of_token.
  destruct (String.eqb_spec token "RUNNING"); [split; [tauto|discriminate]|].
  destruct (String.eqb_spec token "FROZEN"); [split; [tauto|discriminate]|].
  split; [congruence | tauto].
Qed.

(** *** Events of the passes *)

Lemma thaw_events_no_freeze ts :
  filter is_freeze_request (flat_map thaw_events ts) = [].
Proof.
  induction ts as [|task rest IH]; [reflexivity|].
  cbn [flat_map]. rewrite filter_app, IH, app_nil_r.
  unfold thaw_events. destruct (__thaw_process task) as [do_wake task'].
  destruct (do_wake =? 0); reflexivity.
Qed.

Lemma freeze_events_requests ts :
  filter is_freeze_request (map (fun task => EvFreezeTask task true) ts)
  = map (fun task => EvFreezeTask task true) ts.
Proof. induction ts as [|task rest IH]; [reflexivity|]. simpl. now rewrite IH. Qed.

(** *** The specified properties, C1 to C10 *)

(** C8. [freezer_can_attach] refuses the candidate with [-EBUSY] if and
    only if the cached state of the target group is [STATE_FROZEN]; when
    the state is [STATE_RUNNING] or [STATE_FREEZING] it answers 0.  It
    changes nothing and calls nothing. *)
Theorem freezer_can_attach_busy_iff_frozen task st :
  exists retval,
    freezer_can_attach task st = (retval, st, []) /\
    (retval = - EBUSY <-> state st = STATE_FROZEN) /\
    (retval = 0 <-> state st = STATE_RUNNING \/ state st = STATE_FREEZING).
Proof.
  unfold freezer_can_attach, bind, get_state, ret, EBUSY.
  destruct (state st); cbn [freezer_state_eqb app];
    eexists; (split; [reflexivity|]); split; split;
    try discriminate; try tauto; try lia;
    intros [E|E]; discriminate.
Qed.

(** C9. [freezer_fork] asks the joining task to freeze
    ([freeze_task(task, true)]) if and only if the cached state of its
    group is [STATE_FREEZING]; the request is made inside the hook, under
    the freezer lock, and is the only one.  When the state is
    [STATE_RUNNING] no request is made. *)
Theorem freezer_fork_pauses_when_freezing task st :
  (In (EvFreezeTask task true) (outcome_events (freezer_fork task st))
   <-> state st = STATE_FREEZING) /\
  filter is_freeze_request (outcome_events (freezer_fork task st))
  = (if freezer_state_eqb (state st) STATE_FREEZING
     then [EvFreezeTask task true] else []) /\
  (state st = STATE_FREEZING ->
   freezer_fork task st
   = Done (pause_one task) st
       [EvTaskLock task; EvTaskUnlock task;
        EvSpinLockIrq; EvFreezeTask task true; EvSpinUnlockIrq]) /\
  (state st = STATE_RUNNING ->
   freezer_fork task st
   = Done task st
       [EvTaskLock task; EvTaskUnlock task; EvSpinLockIrq; EvSpinUnlockIrq]).
Proof.
  rewrite freezer_fork_cases.
  destruct (state st); cbn [outcome_events freezer_state_eqb filter
                             is_freeze_request];
    repeat split; try discriminate; try reflexivity;
    try (intros _; cbn; tauto);
    cbn; intros Hin; decompose [or] Hin; try discriminate; contradiction.
Qed.

(** Where [freezer_fork] stops, call by call: it hits [BUG_ON] exactly
    when the cached state of the group is [STATE_FROZEN], after the task
    lock and before the freezer lock is taken, which is exactly where
    [freezer_can_attach] refuses.  As long as the group only changes from
    one whole call of this file to the next, that does not happen for a
    fork by a member that is neither frozen nor stopped with the freeze
    pending; inside [unfreeze_cgroup] it does (see
    [fork_bug_while_thawing]). *)
Theorem freezer_fork_bug_on_frozen task st :
  (is_bug (freezer_fork task st) = true <-> state st = STATE_FROZEN) /\
  (state st = STATE_FROZEN ->
   freezer_fork task st = Bug st [EvTaskLock task; EvTaskUnlock task]) /\
  (is_bug (freezer_fork task st) = true ->
   existsb is_spin_lock (outcome_events (freezer_fork task st)) = false) /\
  (forall candidate,
     fst (fst (freezer_can_attach candidate st)) = 0 ->
     is_bug (freezer_fork task st) = false) /\
  (reachable st ->
   forall parent, In parent (tasks st) -> frozen_enough parent = false ->
     is_bug (freezer_fork task st) = false).
Proof.
  rewrite freezer_fork_cases. repeat split.
  - destruct (state st); cbn; congruence.
  - intros ->. reflexivity.
  - intros ->. reflexivity.
  - destruct (state st); cbn; congruence.
  - intros candidate. unfold freezer_can_attach, bind, get_state, ret, EBUSY.
    destruct (state st); cbn; congruence.
  - intros Hr parent Hin Hp.
    destruct (reachable_coherent st Hr) as [_ Hf].
    destruct (state st); try reflexivity.
    specialize (Hf eq_refl). rewrite forallb_forall in Hf.
    specialize (Hf parent Hin). congruence.
Qed.

(** C2, evaluated where the code leaves the state diagram.  A request for
    [STATE_FROZEN] on a running group without tasks: the convergence
    check at the head of [freezer_change_state] writes [STATE_FROZEN]
    over [STATE_RUNNING], the goal is then found reached, and
    [try_to_freeze_cgroup] never runs; [STATE_FREEZING] is never
    written. *)
Theorem empty_group_frozen_without_freezing (rm : bool) :
  freezer_change_state STATE_FROZEN (mkSys STATE_RUNNING ([] : list task_struct) rm)
  = (0, mkSys STATE_FROZEN [] rm,
     [EvSpinLockIrq; EvIterStart; EvSetState STATE_FROZEN; EvIterEnd;
      EvSpinUnlockIrq]) /\
  along_edges STATE_RUNNING
    (state_writes
       (snd (freezer_change_state STATE_FROZEN
               (mkSys STATE_RUNNING ([] : list task_struct) rm)))) = false.
Proof. split; reflexivity. Qed.

Lemma state_writes_app (a b : list (event task_struct)) :
  state_writes (a ++ b) = state_writes a ++ state_writes b.
Proof.
  induction a as [|e a IH]; [reflexivity|].
  destruct e; cbn [app state_writes]; now rewrite IH.
Qed.

Lemma state_writes_freeze ts :
  state_writes (map (fun task => EvFreezeTask task true) ts) = [].
Proof. induction ts as [|t r IH]; [reflexivity | exact IH]. Qed.






(** C3. On a group whose cached state is [STATE_FREEZING] or
    [STATE_FROZEN], a request for [STATE_RUNNING] always returns 0,
    whatever [__thaw_process] answers for the tasks; it calls
    [__thaw_process] once for every task of the group, in order, asks no
    task to freeze, and leaves the state [STATE_RUNNING]. *)
Theorem thaw_always_succeeds st :
  state st = STATE_FREEZING \/ state st = STATE_FROZEN ->
  exists evs,
    freezer_change_state STATE_RUNNING st
    = (0, mkSys STATE_RUNNING (map thaw_one (tasks st)) (removed st), evs) /\
    filter is_thaw evs = map EvThawProcess (tasks st) /\
    filter is_freeze_request evs = [].
Proof.
  intros Hs. rewrite freezer_change_state_unfold.
  destruct (check_if_frozen_shape st) as [b ->]. unfold check_result.
  assert (E : (if freezer_state_eqb STATE_RUNNING
                    (state (if b then with_state STATE_FROZEN st else st))
               then ret 0
               else match state (if b then with_state STATE_FROZEN st else st) with
                    | STATE_RUNNING => try_to_freeze_cgroup
                    | STATE_FREEZING =>
                        if freezer_state_eqb STATE_RUNNING STATE_FROZEN
                        then try_to_freeze_cgroup else unfreeze_cgroup
                    | STATE_FROZEN => unfreeze_cgroup
                    end) (if b then with_state STATE_FROZEN st else st)
              = unfreeze_cgroup (if b then with_state STATE_FROZEN st else st)).
  { destruct b, Hs as [Es|Es]; cbn [with_state state]; rewrite ?Es; reflexivity. }
  cbv beta iota zeta. rewrite E, unfreeze_cgroup_eq.
  assert (Et : tasks (if b then with_state STATE_FROZEN st else st) = tasks st)
    by now destruct b.
  assert (Er : removed (if b then with_state STATE_FROZEN st else st) = removed st)
    by now destruct b.
  rewrite Et, Er. eexists. split; [reflexivity|].
  split.
  - cbn [filter is_thaw app]. rewrite !filter_app.
    replace (filter is_thaw (if b then [EvSetState STATE_FROZEN] else []))
      with (@nil (event task_struct)) by now destruct b.
    cbn [filter is_thaw app]. rewrite !filter_app, thaw_events_requests.
    cbn [filter is_thaw]. now rewrite !app_nil_r.
  - cbn [filter is_freeze_request app]. rewrite !filter_app.
    replace (filter is_freeze_request (if b then [EvSetState STATE_FROZEN] else []))
      with (@nil (event task_struct)) by now destruct b.
    cbn [filter is_freeze_request app]. rewrite !filter_app, thaw_events_no_freeze.
    reflexivity.
Qed.

(** C4. [try_to_freeze_cgroup] writes [STATE_FREEZING] before it starts
    the scan, asks every task once, and returns [-EBUSY] if and only if
    some task of the group blocks (its request was not answered as
    already satisfied, and after it the task is not stopped or traced with
    the request pending, not freezing and not marked to be skipped);
    otherwise it returns 0.  In both cases the group is left in
    [STATE_FREEZING]. *)
Theorem try_to_freeze_cgroup_busy st :
  Z.of_nat (List.length (tasks st)) <= UINT_MAX ->
  exists retval st' scan,
    try_to_freeze_cgroup st = (retval, st', EvSetState STATE_FREEZING :: scan) /\
    state_writes scan = [] /\
    filter is_freeze_request scan
    = map (fun task => EvFreezeTask task true) (tasks st) /\
    state st' = STATE_FREEZING /\
    (retval = - EBUSY <->
     exists task, In task (tasks st) /\ cant_freeze_now task = true) /\
    (retval = 0 <->
     forall task, In task (tasks st) -> cant_freeze_now task = false).
Proof.
  intros Hb. rewrite try_to_freeze_cgroup_eq by exact Hb.
  do 3 eexists. split; [reflexivity|].
  split; [cbn [state_writes]; now rewrite state_writes_app, state_writes_freeze|].
  split.
  { cbn [filter is_freeze_request]. rewrite filter_app, freeze_events_requests.
    cbn. now rewrite app_nil_r. }
  split; [reflexivity|].
  destruct (existsb cant_freeze_now (tasks st)) eqn:Ex.
  - apply existsb_exists in Ex. split; split; try tauto; unfold EBUSY.
    + lia.
    + intros Hall. destruct Ex as [task [Hin Hc]].
      rewrite (Hall task Hin) in Hc. discriminate.
  - assert (Hall : forall task, In task (tasks st) -> cant_freeze_now task = false).
    { intros task Hin. destruct (cant_freeze_now task) eqn:Hc; [|reflexivity].
      assert (existsb cant_freeze_now (tasks st) = true)
        by (apply existsb_exists; eauto).
      congruence. }
    split; split; try tauto; unfold EBUSY.
    + lia.
    + intros [task [Hin Hc]]. rewrite (Hall task Hin) in Hc. discriminate.
Qed.

(** C5. When the goal equals the cached state as the convergence check at
    the head of the call leaves it, [freezer_change_state] returns 0,
    leaves the group as the check left it, and makes no call of
    [freeze_task], [__thaw_process] or [wake_up_process]. *)
Theorem request_current_state_noop goal_state st :
  goal_state = state (snd (fst (check_if_frozen st))) ->
  exists evs,
    freezer_change_state goal_state st
    = (0, snd (fst (check_if_frozen st)), evs) /\
    state (snd (fst (check_if_frozen st))) = goal_state /\
    tasks (snd (fst (check_if_frozen st))) = tasks st /\
    filter is_pause_or_resume evs = [].
Proof.
  intros Eg. rewrite freezer_change_state_unfold.
  destruct (check_if_frozen_shape st) as [b Eb]. rewrite Eb in *.
  unfold check_result in *. cbn [fst snd] in Eg. cbv beta iota zeta.
  rewrite <- Eg, freezer_state_eqb_refl. unfold ret. cbn [fst snd].
  eexists. split; [reflexivity|]. split; [now symmetry|].
  split; [now destruct b|]. now destruct b.
Qed.

(** The example of the idempotence rule: a request for [STATE_RUNNING] on
    a group recorded as running, with a task that is not frozen enough,
    does nothing but take the lock and scan. *)
Lemma request_running_on_running st :
  Z.of_nat (List.length (tasks st)) <= UINT_MAX ->
  state st = STATE_RUNNING ->
  forallb frozen_enough (tasks st) = false ->
  freezer_change_state STATE_RUNNING st
  = (0, st, [EvSpinLockIrq; EvIterStart; EvIterEnd; EvSpinUnlockIrq]).
Proof.
  intros Hb Es Hall. rewrite freezer_change_state_unfold.
  rewrite check_if_frozen_eq by exact Hb. unfold check_result.
  rewrite Hall. cbv beta iota zeta. rewrite Es. reflexivity.
Qed.

(** The same request when every task of the running group is frozen
    enough (and so also when it has no task): the check writes
    [STATE_FROZEN], and the request then thaws the group. *)
Lemma request_running_on_running_all_frozen st :
  Z.of_nat (List.length (tasks st)) <= UINT_MAX ->
  state st = STATE_RUNNING ->
  forallb frozen_enough (tasks st) = true ->
  freezer_change_state STATE_RUNNING st
  = (0, mkSys STATE_RUNNING (map thaw_one (tasks st)) (removed st),
     [EvSpinLockIrq; EvIterStart; EvSetState STATE_FROZEN; EvIterEnd; EvIterStart]
       ++ flat_map thaw_events (tasks st)
       ++ [EvIterEnd; EvSetState STATE_RUNNING; EvSpinUnlockIrq]).
Proof.
  intros Hb Es Hall. rewrite freezer_change_state_unfold.
  rewrite check_if_frozen_eq by exact Hb. unfold check_result.
  rewrite Hall. cbv beta iota zeta. cbn [with_state state freezer_state_eqb].
  rewrite unfreeze_cgroup_eq. cbn [with_state tasks removed app].
  now rewrite <- app_assoc.
Qed.

(** C6. A read of the state file of a live group returns 0 and appends to
    the seq_file exactly one token and a newline: [RUNNING] when the read
    leaves [STATE_RUNNING], [FREEZING] when it leaves [STATE_FREEZING],
    [FROZEN] when it leaves [STATE_FROZEN].  It runs [check_if_frozen],
    which may write [STATE_FROZEN], when and only when the cached state
    is [STATE_FREEZING]; on [STATE_RUNNING] and [STATE_FROZEN] it takes
    and releases the locks and changes nothing. *)
Theorem freezer_read_register m st :
  removed st = false ->
  exists st' evs token,
    freezer_read m st
    = (0, (m ++ token ++ String "010" EmptyString)%string, st', evs) /\
    ((state st' = STATE_RUNNING /\ token = "RUNNING"%string) \/
     (state st' = STATE_FREEZING /\ token = "FREEZING"%string) \/
     (state st' = STATE_FROZEN /\ token = "FROZEN"%string)) /\
    (existsb is_scan_start evs = true <-> state st = STATE_FREEZING) /\
    (state st = STATE_FREEZING ->
     exists e1,
       check_if_frozen st = (tt, st', e1) /\
       evs = EvCgroupLock :: EvSpinLockIrq :: e1
               ++ [EvSpinUnlockIrq; EvCgroupUnlock] /\
       (state st' = STATE_FREEZING \/ state st' = STATE_FROZEN)) /\
    (state st <> STATE_FREEZING ->
     st' = st /\
     evs = [EvCgroupLock; EvSpinLockIrq; EvSpinUnlockIrq; EvCgroupUnlock]) /\
    tasks st' = tasks st.
Proof.
  intros Hlive. rewrite freezer_read_unfold, Hlive.
  destruct (state st) eqn:Es; cbn [freezer_state_eqb].
  - exists st, [EvCgroupLock; EvSpinLockIrq; EvSpinUnlockIrq; EvCgroupUnlock],
      "RUNNING"%string.
    rewrite Es. split; [reflexivity|]. split; [now left|].
    split; [cbn; split; discriminate|]. split; [discriminate|].
    split; [|reflexivity]. intros _. now split.
  - destruct (check_if_frozen_shape st) as [b Eb]. rewrite Eb.
    unfold check_result. destruct b.
    + exists (with_state STATE_FROZEN st),
        [EvCgroupLock; EvSpinLockIrq; EvIterStart; EvSetState STATE_FROZEN;
         EvIterEnd; EvSpinUnlockIrq; EvCgroupUnlock], "FROZEN"%string.
      split; [reflexivity|]. split; [now right; right|].
      split; [cbn; tauto|]. split; [|split; [congruence | reflexivity]].
      intros _. eexists. split; [reflexivity|]. split; [reflexivity | now right].
    + exists st,
        [EvCgroupLock; EvSpinLockIrq; EvIterStart; EvIterEnd;
         EvSpinUnlockIrq; EvCgroupUnlock], "FREEZING"%string.
      rewrite Es. split; [reflexivity|]. split; [now right; left|].
      split; [cbn; tauto|]. split; [|split; [congruence | reflexivity]].
      intros _. eexists. split; [reflexivity|]. split; [reflexivity | now left].
  - exists st, [EvCgroupLock; EvSpinLockIrq; EvSpinUnlockIrq; EvCgroupUnlock],
      "FROZEN"%string.
    rewrite Es. split; [reflexivity|]. split; [now right; right|].
    split; [cbn; split; discriminate|]. split; [discriminate|].
    split; [|reflexivity]. intros _. now split.
Qed.

(** C7. [freezer_write] goes on to [freezer_change_state] only when the
    buffer holds exactly [RUNNING] or exactly [FROZEN], with that state as
    goal (after the check that the group is live).  For every other
    buffer, [FREEZING] among them, it returns [-EIO], leaves the group as
    it is and calls nothing. *)
Theorem freezer_write_tokens buffer st :
  match goal_of_token (c_str buffer) with
  | Some goal_state =>
      freezer_write buffer st
      = if removed st then (- ENODEV, st, [EvCgroupLock; EvCgroupUnlock])
        else let '(retval, st', e) := freezer_change_state goal_state st in
             (retval, st', EvCgroupLock :: e ++ [EvCgroupUnlock])
  | None => freezer_write buffer st = (- EIO, st, [])
  end /\
  (goal_of_token (c_str buffer) <> None <->
   c_str buffer = "RUNNING"%string \/ c_str buffer = "FROZEN"%string) /\
  freezer_write "FREEZING" st = (- EIO, st, []).
Proof.
  split; [|split; [apply goal_of_token_some | now rewrite freezer_write_unfold]].
  rewrite freezer_write_unfold. cbv zeta. unfold goal_of_token.
  pose proof (strcmp_0_iff buffer (freezer_state_strs STATE_RUNNING)) as Hr.
  pose proof (strcmp_0_iff buffer (freezer_state_strs STATE_FROZEN)) as Hf.
  change (c_str (freezer_state_strs STATE_RUNNING)) with "RUNNING"%string in Hr.
  change (c_str (freezer_state_strs STATE_FROZEN)) with "FROZEN"%string in Hf.
  destruct (String.eqb_spec (c_str buffer) "RUNNING") as [Er|Er].
  - apply Hr in Er. rewrite Er. reflexivity.
  - destruct (Z.eqb_spec (strcmp buffer (freezer_state_strs STATE_RUNNING)) 0)
      as [E|_]; [apply Hr in E; contradiction|].
    destruct (String.eqb_spec (c_str buffer) "FROZEN") as [Ef|Ef].
    + apply Hf in Ef. rewrite Ef. reflexivity.
    + destruct (Z.eqb_spec (strcmp buffer (freezer_state_strs STATE_FROZEN)) 0)
        as [E|_]; [apply Hf in E; contradiction|].
      reflexivity.
Qed.

(** A buffer without NUL holds itself. *)
Lemma c_str_no_nul s :
  (forall c, In c (list_ascii_of_string s) -> byte_of c <> 0) -> c_str s = s.
Proof.
  induction s as [|c s IH]; intros Hn; [reflexivity|].
  cbn [c_str]. destruct (Z.eqb_spec (byte_of c) 0) as [E|_].
  - elim (Hn c); [now left | exact E].
  - rewrite IH; [reflexivity|]. intros c' Hc'. apply Hn. now right.
Qed.


End FreezerTheory.

(** ** The theorems at work on sample groups *)

Section Witnesses.
Import Adapter Sample.


(** The group of three after a freeze request that stays busy. *)
Lemma busy_group_reachable :
  reachable (snd (fst (freezer_write "FROZEN" busy_group))).
Proof.
  apply (reach_step busy_group).
  - apply reach_create; [reflexivity | vm_compute; discriminate].
  - eapply (step_write busy_group "FROZEN"). reflexivity.
Qed.


Lemma thaw_always_succeeds_witness :
  (state frozen_group = STATE_FREEZING \/ state frozen_group = STATE_FROZEN) /\
  exists evs,
    freezer_change_state STATE_RUNNING frozen_group
    = (0, mkSys STATE_RUNNING (map thaw_one (tasks frozen_group)) false, evs) /\
    filter is_thaw evs = map EvThawProcess (tasks frozen_group) /\
    filter is_freeze_request evs = [].
Proof.
  split; [right; reflexivity|].
  apply (thaw_always_succeeds frozen_group). right. reflexivity.
Defined.

Lemma try_to_freeze_cgroup_busy_witness :
  Z.of_nat (List.length (tasks busy_group)) <= UINT_MAX /\
  exists retval st' scan,
    try_to_freeze_cgroup busy_group
    = (retval, st', EvSetState STATE_FREEZING :: scan) /\
    state_writes scan = [] /\
    filter is_freeze_request scan
    = map (fun task => EvFreezeTask task true) (tasks busy_group) /\
    state st' = STATE_FREEZING /\
    (retval = - EBUSY <->
     exists task, In task (tasks busy_group) /\ cant_freeze_now task = true) /\
    (retval = 0 <->
     forall task, In task (tasks busy_group) -> cant_freeze_now task = false).
Proof.
  split; [vm_compute; discriminate|].
  apply (try_to_freeze_cgroup_busy busy_group). vm_compute. discriminate.
Defined.

Lemma request_current_state_noop_witness :
  STATE_RUNNING = state (snd (fst (check_if_frozen running_group))) /\
  exists evs,
    freezer_change_state STATE_RUNNING running_group
    = (0, snd (fst (check_if_frozen running_group)), evs) /\
    state (snd (fst (check_if_frozen running_group))) = STATE_RUNNING /\
    tasks (snd (fst (check_if_frozen running_group))) = tasks running_group /\
    filter is_pause_or_resume evs = [].
Proof.
  split; [reflexivity|].
  apply (request_current_state_noop STATE_RUNNING running_group). reflexivity.
Defined.

Lemma freezer_read_register_witness :
  removed freezing_group = false /\
  exists st' evs token,
    freezer_read EmptyString freezing_group
    = (0, (token ++ String "010" EmptyString)%string, st', evs) /\
    ((state st' = STATE_RUNNING /\ token = "RUNNING"%string) \/
     (state st' = STATE_FREEZING /\ token = "FREEZING"%string) \/
     (state st' = STATE_FROZEN /\ token = "FROZEN"%string)) /\
    (existsb is_scan_start evs = true <-> state freezing_group = STATE_FREEZING) /\
    tasks st' = tasks freezing_group.
Proof.
  split; [reflexivity|].
  destruct (freezer_read_register EmptyString freezing_group eq_refl)
    as [st' [evs [token [E [Htok [Hscan [_ [_ Ht]]]]]]]].
  exists st', evs, token. split; [exact E|].
  split; [exact Htok|]. split; [exact Hscan | exact Ht].
Defined.

Lemma freezer_write_tokens_witness :
  freezer_write "FREEZING" running_group = (- EIO, running_group, []) /\
  freezer_write "RUNNING " running_group = (- EIO, running_group, []).
Proof.
  split.
  - apply (freezer_write_tokens "FREEZING" running_group).
  - apply (proj1 (freezer_write_tokens "RUNNING " running_group)).
Defined.

Lemma freezer_can_attach_busy_iff_frozen_witness :
  exists retval,
    freezer_can_attach runner frozen_group = (retval, frozen_group, []) /\
    (retval = - EBUSY <-> state frozen_group = STATE_FROZEN) /\
    (retval = 0 <->
     state frozen_group = STATE_RUNNING \/ state frozen_group = STATE_FREEZING).
Proof. apply (freezer_can_attach_busy_iff_frozen runner frozen_group). Defined.

Lemma freezer_fork_pauses_when_freezing_witness :
  freezer_fork runner freezing_group
  = Done (mkMember false true false false false) freezing_group
      [EvTaskLock runner; EvTaskUnlock runner;
       EvSpinLockIrq; EvFreezeTask runner true; EvSpinUnlockIrq].
Proof.
  exact (proj1 (proj2 (proj2
           (freezer_fork_pauses_when_freezing runner freezing_group))) eq_refl).
Defined.

Lemma freezer_fork_bug_on_frozen_witness :
  freezer_fork runner frozen_group
  = Bug frozen_group [EvTaskLock runner; EvTaskUnlock runner] /\
  is_bug (freezer_fork runner freezing_group) = false /\
  is_bug (freezer_fork runner (snd (fst (freezer_write "FROZEN" busy_group))))
  = false.
Proof.
  split; [|split].
  - exact (proj1 (proj2 (freezer_fork_bug_on_frozen runner frozen_group)) eq_refl).
  - exact (proj1 (proj2 (proj2 (proj2
             (freezer_fork_bug_on_frozen runner freezing_group)))) runner eq_refl).
  - apply (proj2 (proj2 (proj2 (proj2
             (freezer_fork_bug_on_frozen runner
                (snd (fst (freezer_write "FROZEN" busy_group)))))))
             busy_group_reachable stubborn);
      [vm_compute; tauto | reflexivity].
Defined.

(** The idempotence example away from its rule: a request for
    [STATE_RUNNING] on a group recorded as running whose only member is
    paused resumes that member. *)
Lemma request_running_resumes_paused_member :
  freezer_change_state STATE_RUNNING running_paused
  = (0, running_group,
     [EvSpinLockIrq; EvIterStart; EvSetState STATE_FROZEN; EvIterEnd;
      EvIterStart; EvTaskLock sleeper; EvThawProcess sleeper;
      EvTaskUnlock runner; EvWakeUpProcess runner;
      EvIterEnd; EvSetState STATE_RUNNING; EvSpinUnlockIrq]).
Proof. reflexivity. Qed.

(** A freeze that stays busy: the group of three is left in
    [STATE_FREEZING] with [-EBUSY], and a read then reports [FREEZING]. *)
Lemma busy_group_stays_freezing :
  fst (fst (freezer_write "FROZEN" busy_group)) = - EBUSY /\
  state (snd (fst (freezer_write "FROZEN" busy_group))) = STATE_FREEZING /\
  snd (fst (fst (freezer_read EmptyString
                   (snd (fst (freezer_write "FROZEN" busy_group))))))
  = ("FREEZING" ++ String "010" EmptyString)%string.
Proof. repeat split. Qed.

End Witnesses.

(** ** Further properties of the code *)

Section FreezerFurther.

Context {task_struct : Type} `{FreezerOps task_struct}.

Implicit Types (st : cgroup_sys task_struct) (task : task_struct)
  (ts : list task_struct).

(** *** Closed forms that hold for groups of any size *)

Lemma check_if_frozen_verdict st :
  check_if_frozen st = check_result (check_verdict (tasks st)) st.
Proof.
  unfold check_if_frozen, check_result, check_verdict, bind, emit, cgroup_iter.
  destruct (check_scan_frame (tasks st) (0, 0)) as [c' E]. rewrite E.
  rewrite with_tasks_same. cbn [fst snd].
  now destruct (fst c' =? snd c').
Qed.

Lemma check_verdict_bounded ts :
  Z.of_nat (List.length ts) <= UINT_MAX ->
  check_verdict ts = forallb frozen_enough ts.
Proof.
  intros Hb.
  pose proof (check_if_frozen_verdict (mkSys STATE_RUNNING ts false)) as E1.
  rewrite (check_if_frozen_eq (mkSys STATE_RUNNING ts false) Hb) in E1.
  unfold check_result in E1. cbn [tasks] in E1.
  destruct (forallb frozen_enough ts), (check_verdict ts);
    try reflexivity; discriminate.
Qed.

Lemma freeze_scan_frame ts : forall n,
  exists n', iter_tasks try_to_freeze_body ts n
             = (map pause_one ts, n', map (fun task => EvFreezeTask task true) ts).
Proof.
  induction ts as [|task rest IH]; intros n; [now exists n|].
  cbn [iter_tasks map]. rewrite try_to_freeze_body_eq.
  destruct (IH (if cant_freeze_now task then u32 (n + 1) else n)) as [n' E].
  rewrite E. now exists n'.
Qed.

Lemma try_to_freeze_cgroup_verdict st :
  try_to_freeze_cgroup st
  = (freeze_verdict (tasks st),
     mkSys STATE_FREEZING (map pause_one (tasks st)) (removed st),
     freeze_pass_events (tasks st)).
Proof.
  unfold try_to_freeze_cgroup, freeze_verdict, freeze_pass_events,
    bind, set_state, emit, cgroup_iter, ret.
  cbn [with_state tasks].
  destruct (freeze_scan_frame (tasks st) 0) as [n' E]. rewrite E.
  reflexivity.
Qed.

Lemma freeze_verdict_bounded ts :
  Z.of_nat (List.length ts) <= UINT_MAX ->
  freeze_verdict ts = if existsb cant_freeze_now ts then - EBUSY else 0.
Proof.
  intros Hb.
  pose proof (try_to_freeze_cgroup_verdict (mkSys STATE_RUNNING ts false)) as E1.
  rewrite (try_to_freeze_cgroup_eq (mkSys STATE_RUNNING ts false) Hb) in E1.
  cbn [tasks] in E1. now injection E1 as <-.
Qed.

Lemma freeze_verdict_values ts :
  freeze_verdict ts = 0 \/ freeze_verdict ts = - EBUSY.
Proof. unfold freeze_verdict. destruct (_ =? 0); tauto. Qed.

(** [freezer_change_state] computes [change_state_result]. *)
Lemma freezer_change_state_result goal_state st :
  freezer_change_state goal_state st = change_state_result goal_state st.
Proof.
  rewrite freezer_change_state_unfold, check_if_frozen_verdict.
  unfold check_result, change_state_result. cbv beta iota zeta.
  destruct (check_verdict (tasks st)).
  - cbn [with_state state].
    destruct goal_state; cbn [freezer_state_eqb ret];
      try rewrite unfreeze_cgroup_eq; reflexivity.
  - rewrite with_state_same.
    destruct (freezer_state_eqb goal_state (state st)); [reflexivity|].
    destruct (state st);
      [| destruct (freezer_state_eqb goal_state STATE_FROZEN) |];
      rewrite ?try_to_freeze_cgroup_verdict, ?unfreeze_cgroup_eq; reflexivity.
Qed.

Lemma write_goal_result_eq goal_state st :
  write_goal_result goal_state st
  = if removed st then (- ENODEV, st, [EvCgroupLock; EvCgroupUnlock])
    else let '(retval, st', e) := freezer_change_state goal_state st in
         (retval, st', EvCgroupLock :: e ++ [EvCgroupUnlock]).
Proof. unfold write_goal_result. now rewrite freezer_change_state_result. Qed.

(** [freezer_write] parses the token, then computes [write_goal_result]. *)
Lemma freezer_write_parse buffer st :
  freezer_write buffer st
  = match goal_of_token (c_str buffer) with
    | Some goal_state => write_goal_result goal_state st
    | None => (- EIO, st, [])
    end.
Proof.
  rewrite freezer_write_unfold. cbv zeta. unfold goal_of_token.
  pose proof (strcmp_0_iff buffer (freezer_state_strs STATE_RUNNING)) as Hr.
  pose proof (strcmp_0_iff buffer (freezer_state_strs STATE_FROZEN)) as Hf.
  change (c_str (freezer_state_strs STATE_RUNNING)) with "RUNNING"%string in Hr.
  change (c_str (freezer_state_strs STATE_FROZEN)) with "FROZEN"%string in Hf.
  destruct (String.eqb_spec (c_str buffer) "RUNNING") as [Er|Er].
  - apply Hr in Er. rewrite Er, write_goal_result_eq. reflexivity.
  - destruct (Z.eqb_spec (strcmp buffer (freezer_state_strs STATE_RUNNING)) 0)
      as [E|_]; [apply Hr in E; contradiction|].
    destruct (String.eqb_spec (c_str buffer) "FROZEN") as [Ef|Ef].
    + apply Hf in Ef. rewrite Ef, write_goal_result_eq. reflexivity.
    + destruct (Z.eqb_spec (strcmp buffer (freezer_state_strs STATE_FROZEN)) 0)
        as [E|_]; [apply Hf in E; contradiction|].
      reflexivity.
Qed.

(** *** Events of the passes, by kind *)

Lemma freeze_pass_no_thaw ts :
  filter is_thaw (freeze_pass_events ts) = [] /\
  filter is_wake (freeze_pass_events ts) = [].
Proof.
  unfold freeze_pass_events. cbn [filter is_thaw is_wake].
  rewrite !filter_app. cbn [filter is_thaw is_wake].
  split; (induction ts as [|t r IH]; [reflexivity | exact IH]).
Qed.

Lemma thaw_pass_no_freeze ts :
  filter is_freeze_request (thaw_pass_events ts) = [].
Proof.
  unfold thaw_pass_events. cbn [filter is_freeze_request].
  rewrite filter_app, thaw_events_no_freeze. reflexivity.
Qed.

Lemma thaw_events_wakes ts :
  filter is_wake (flat_map thaw_events ts) = map EvWakeUpProcess (woken ts).
Proof.
  unfold woken. induction ts as [|task rest IH]; [reflexivity|].
  cbn [flat_map filter map]. rewrite filter_app, IH.
  unfold thaw_events. destruct (__thaw_process task) as [do_wake task'] eqn:E.
  cbn [fst snd]. destruct (do_wake =? 0);
    cbn [negb map filter app is_wake]; rewrite ?E; reflexivity.
Qed.

(** *** Locks *)

Lemma lock_run_app (a b : list (event task_struct)) held :
  lock_run (a ++ b) held
  = match lock_run a held with
    | Some held' => lock_run b held'
    | None => None
    end.
Proof.
  revert held. induction a as [|e a IH]; intros held; [reflexivity|].
  cbn [app lock_run]. destruct (lock_step e held); [apply IH | reflexivity].
Qed.

Lemma lock_run_freeze_requests ts held :
  holds LFreezer held = true ->
  lock_run (map (fun task => EvFreezeTask task true) ts) held = Some held.
Proof.
  intros Hh. induction ts as [|t r IH]; [reflexivity|].
  cbn [map lock_run lock_step]. now rewrite Hh.
Qed.

Lemma lock_run_thaw_events ts held :
  forallb (fun h => Nat.ltb (lock_level h) (lock_level LTask)) held = true ->
  lock_run (flat_map thaw_events ts) held = Some held.
Proof.
  intros Hh. induction ts as [|t r IH]; [reflexivity|].
  cbn [flat_map]. rewrite lock_run_app.
  assert (E : lock_run (thaw_events t) held = Some held).
  { unfold thaw_events. destruct (__thaw_process t) as [w t'].
    cbn [app lock_run lock_step]. unfold acquire. rewrite Hh.
    cbn. destruct (w =? 0); reflexivity. }
  now rewrite E.
Qed.

(** The events of [freezer_change_state] keep the discipline of
    [lock_step] under any locks of the caller that lie outside
    [freezer->lock], and give them back as they were. *)
Lemma lock_run_change_state goal_state st held :
  forallb (fun h => Nat.ltb (lock_level h) (lock_level LFreezer)) held = true ->
  lock_run (snd (freezer_change_state goal_state st)) held = Some held.
Proof.
  intros Hh. rewrite freezer_change_state_result.
  assert (Hcheck : forall b : bool,
            lock_run (@EvIterStart task_struct
                        :: (if b then [EvSetState STATE_FROZEN] else [])
                        ++ [EvIterEnd]) (LFreezer :: held)
            = Some (LFreezer :: held)).
  { intros b. cbn [lock_run lock_step]. unfold acquire.
    assert (Hlt : forallb (fun h => Nat.ltb (lock_level h) (lock_level LCssSet))
                    (LFreezer :: held) = true).
    { cbn [forallb]. apply andb_true_iff. split; [reflexivity|].
      rewrite forallb_forall in *. intros h Hin. specialize (Hh h Hin).
      apply Nat.ltb_lt in Hh. apply Nat.ltb_lt. simpl in *. lia. }
    rewrite Hlt. destruct b; reflexivity. }
  assert (Hfreeze : lock_run (freeze_pass_events (tasks st)) (LFreezer :: held)
                    = Some (LFreezer :: held)).
  { unfold freeze_pass_events. cbn [lock_run lock_step holds existsb].
    change (lock_eqb LFreezer LFreezer) with true. cbn [orb]. unfold acquire.
    assert (Hlt : forallb (fun h => Nat.ltb (lock_level h) (lock_level LCssSet))
                    (LFreezer :: held) = true).
    { cbn [forallb]. apply andb_true_iff. split; [reflexivity|].
      rewrite forallb_forall in *. intros h Hin. specialize (Hh h Hin).
      apply Nat.ltb_lt in Hh. apply Nat.ltb_lt. simpl in *. lia. }
    rewrite Hlt, lock_run_app, lock_run_freeze_requests; reflexivity. }
  assert (Hthaw : lock_run (thaw_pass_events (tasks st)) (LFreezer :: held)
                  = Some (LFreezer :: held)).
  { unfold thaw_pass_events. cbn [lock_run lock_step]. unfold acquire.
    assert (Hlt : forallb (fun h => Nat.ltb (lock_level h) (lock_level LCssSet))
                    (LFreezer :: held) = true).
    { cbn [forallb]. apply andb_true_iff. split; [reflexivity|].
      rewrite forallb_forall in *. intros h Hin. specialize (Hh h Hin).
      apply Nat.ltb_lt in Hh. apply Nat.ltb_lt. simpl in *. lia. }
    rewrite Hlt, lock_run_app, lock_run_thaw_events.
    - reflexivity.
    - cbn [forallb]. apply andb_true_iff. split; [reflexivity|].
      apply andb_true_iff. split; [reflexivity|].
      rewrite forallb_forall in *. intros h Hin. specialize (Hh h Hin).
      apply Nat.ltb_lt in Hh. apply Nat.ltb_lt. simpl in *. lia. }
  unfold change_state_result. cbv zeta.
  destruct (freezer_state_eqb goal_state _); [|destruct (match _ with STATE_RUNNING => _ | _ => _ end)];
    cbn [snd lock_run lock_step]; unfold acquire; rewrite Hh;
    rewrite lock_run_app, Hcheck, ?lock_run_app, ?Hfreeze, ?Hthaw; reflexivity.
Qed.

(** X6. Every call into the file takes its locks in one order (cgroup
    mutex, then [freezer->lock], then the css_set lock of the iterator,
    then the task lock), releases them innermost first and holds none on
    return; [freezer->state] is written and [freeze_task] called only
    under [freezer->lock], [__thaw_process] only under the task lock. *)
Theorem locks_nested task m buffer st :
  lock_run (snd (freezer_read m st)) [] = Some [] /\
  lock_run (snd (freezer_write buffer st)) [] = Some [] /\
  lock_run (outcome_events (freezer_fork task st)) [] = Some [] /\
  lock_run (snd (cgroup_frozen task st)) [] = Some [].
Proof.
  split; [|split; [|split]].
  - rewrite freezer_read_unfold. destruct (removed st); [reflexivity|].
    destruct (freezer_state_eqb (state st) STATE_FREEZING); [|reflexivity].
    rewrite check_if_frozen_verdict. unfold check_result.
    destruct (check_verdict (tasks st)); reflexivity.
  - rewrite freezer_write_parse.
    destruct (goal_of_token (c_str buffer)) as [goal_state|]; [|reflexivity].
    rewrite write_goal_result_eq. destruct (removed st); [reflexivity|].
    pose proof (lock_run_change_state goal_state st [LCgroup] eq_refl) as E.
    destruct (freezer_change_state goal_state st) as [[r st'] e].
    cbn [snd] in *. cbn [lock_run lock_step]. unfold acquire. cbn [forallb].
    rewrite lock_run_app, E. reflexivity.
  - rewrite freezer_fork_cases. destruct (state st); reflexivity.
  - reflexivity.
Qed.

(** The discipline of [lock_step] is not empty: a write to
    [freezer->state] without [freezer->lock], a lock taken inside one of
    higher level, and a lock still held at the end are all refused or
    seen. *)
Lemma lock_run_refuses :
  lock_run [@EvSetState task_struct STATE_FROZEN] [] = None /\
  lock_run [@EvIterStart task_struct; EvSpinLockIrq] [] = None /\
  lock_run [@EvSpinLockIrq task_struct] [] = Some [LFreezer].
Proof. repeat split. Qed.

(** *** The state file *)

(** X3. On a removed group a read and a write of a valid token return
    [-ENODEV] after taking and releasing the cgroup mutex only: nothing is
    printed, the group is untouched, no other lock is taken and no task
    is visited.  The token is checked first: an invalid one gets [-EIO]
    whether the group is live or not. *)
Theorem removed_group_untouched m buffer st :
  removed st = true ->
  freezer_read m st = (- ENODEV, m, st, [EvCgroupLock; EvCgroupUnlock]) /\
  (goal_of_token (c_str buffer) <> None ->
   freezer_write buffer st = (- ENODEV, st, [EvCgroupLock; EvCgroupUnlock])) /\
  (goal_of_token (c_str buffer) = None ->
   freezer_write buffer st = (- EIO, st, [])).
Proof.
  intros Hr. rewrite freezer_read_unfold, freezer_write_parse, Hr.
  split; [reflexivity|].
  destruct (goal_of_token (c_str buffer)) as [goal_state|].
  - unfold write_goal_result. rewrite Hr. split; [reflexivity | discriminate].
  - split; [congruence | reflexivity].
Qed.

(** X1. A write of [RUNNING] to a live group always returns 0 and leaves
    the state [STATE_RUNNING]; the tasks are either untouched or each
    thawed once; no task is asked to freeze; and a read that follows
    prints [RUNNING] and changes nothing. *)
Theorem write_running_then_read m buffer st :
  c_str buffer = "RUNNING"%string ->
  removed st = false ->
  exists st' evs,
    freezer_write buffer st = (0, st', evs) /\
    state st' = STATE_RUNNING /\
    (tasks st' = tasks st \/ tasks st' = map thaw_one (tasks st)) /\
    filter is_freeze_request evs = [] /\
    freezer_read m st'
    = (0, (m ++ "RUNNING" ++ String "010" EmptyString)%string, st',
       [EvCgroupLock; EvSpinLockIrq; EvSpinUnlockIrq; EvCgroupUnlock]).
Proof.
  intros Eb Hlive. rewrite freezer_write_parse, Eb.
  change (goal_of_token "RUNNING") with (Some STATE_RUNNING).
  unfold write_goal_result, change_state_result. rewrite Hlive. cbv zeta.
  assert (Hread : forall st', removed st' = false -> state st' = STATE_RUNNING ->
            freezer_read m st'
            = (0, (m ++ "RUNNING" ++ String "010" EmptyString)%string, st',
               [EvCgroupLock; EvSpinLockIrq; EvSpinUnlockIrq; EvCgroupUnlock])).
  { intros st' Hl Hs. rewrite freezer_read_unfold, Hl, Hs.
    cbn [freezer_state_eqb]. cbv beta iota. rewrite Hs. reflexivity. }
  assert (Hnf : forall (a : list (event task_struct)),
            filter is_freeze_request a = [] ->
            filter is_freeze_request
              (EvCgroupLock :: (EvSpinLockIrq :: a ++ thaw_pass_events (tasks st)
                                  ++ [EvSpinUnlockIrq]) ++ [EvCgroupUnlock]) = []).
  { intros a Ha. cbn [filter is_freeze_request app].
    rewrite !filter_app, Ha, thaw_pass_no_freeze. reflexivity. }
  destruct (check_verdict (tasks st)).
  - cbn [freezer_state_eqb]. do 2 eexists.
    split; [reflexivity|]. split; [reflexivity|]. split; [now right|].
    split; [now apply Hnf | now apply Hread].
  - destruct (state st) eqn:Es; cbn [freezer_state_eqb].
    + do 2 eexists. split; [reflexivity|].
      cbn [with_state state tasks]. split; [reflexivity|]. split; [now left|].
      split; [reflexivity | now apply Hread].
    + do 2 eexists. split; [reflexivity|]. split; [reflexivity|].
      split; [now right|]. split; [now apply Hnf | now apply Hread].
    + do 2 eexists. split; [reflexivity|]. split; [reflexivity|].
      split; [now right|]. split; [now apply Hnf | now apply Hread].
Qed.

(** A write of [FROZEN] to a live group, in closed form. *)
Lemma write_frozen_result buffer st :
  c_str buffer = "FROZEN"%string ->
  removed st = false ->
  Z.of_nat (List.length (tasks st)) <= UINT_MAX ->
  fst (freezer_write buffer st)
  = (if forallb frozen_enough (tasks st) then (0, with_state STATE_FROZEN st)
     else if freezer_state_eqb (state st) STATE_FROZEN then (0, st)
     else (if existsb cant_freeze_now (tasks st) then - EBUSY else 0,
           mkSys STATE_FREEZING (map pause_one (tasks st)) false)).
Proof.
  intros Eb Hlive Hb. rewrite freezer_write_parse, Eb.
  change (goal_of_token "FROZEN") with (Some STATE_FROZEN).
  unfold write_goal_result, change_state_result. rewrite Hlive. cbv zeta.
  rewrite (check_verdict_bounded _ Hb), (freeze_verdict_bounded _ Hb).
  destruct (forallb frozen_enough (tasks st)); [reflexivity|].
  destruct (state st) eqn:Es; cbn [freezer_state_eqb fst]; try reflexivity.
  rewrite <- Es. now rewrite with_state_same.
Qed.

(** X2. A write of [FROZEN] to a live group, case by case.  When every
    task is already frozen enough the group is recorded [STATE_FROZEN]
    at once and 0 is returned.  Otherwise a group recorded as frozen is
    left alone; a running or freezing group ends in [STATE_FREEZING] with
    every task asked once, and the write returns [-EBUSY] exactly when
    some task blocks.  The state is never [STATE_RUNNING] afterwards. *)
Theorem write_frozen_outcome buffer st :
  c_str buffer = "FROZEN"%string ->
  removed st = false ->
  Z.of_nat (List.length (tasks st)) <= UINT_MAX ->
  fst (freezer_write buffer st)
  = (if forallb frozen_enough (tasks st) then (0, with_state STATE_FROZEN st)
     else if freezer_state_eqb (state st) STATE_FROZEN then (0, st)
     else (if existsb cant_freeze_now (tasks st) then - EBUSY else 0,
           mkSys STATE_FREEZING (map pause_one (tasks st)) false)) /\
  state (snd (fst (freezer_write buffer st))) <> STATE_RUNNING.
Proof.
  intros Eb Hlive Hb. rewrite (write_frozen_result buffer st Eb Hlive Hb).
  split; [reflexivity|].
  destruct (forallb frozen_enough (tasks st)); [discriminate|].
  destruct (freezer_state_eqb_spec (state st) STATE_FROZEN) as [Es|Es];
    cbn [snd state]; [rewrite Es|]; discriminate.
Qed.

(** X4. A read neither visits a task with [freeze_task],
    [__thaw_process] or [wake_up_process] nor changes the tasks, and
    reading again gives the same answer: the second read returns the same
    value, prints the same token and leaves the group as the first read
    left it, without any write to [freezer->state]. *)
Theorem freezer_read_twice m st :
  let '(r1, st1, e1) := freezer_read m st in
  filter is_pause_or_resume e1 = [] /\
  tasks st1 = tasks st /\
  exists e2,
    freezer_read m st1 = (r1, st1, e2) /\ state_writes e2 = [].
Proof.
  rewrite freezer_read_unfold.
  destruct (removed st) eqn:Hr.
  - split; [reflexivity|]. split; [reflexivity|].
    eexists. rewrite freezer_read_unfold, Hr. split; reflexivity.
  - destruct (freezer_state_eqb_spec (state st) STATE_FREEZING) as [Es|Es].
    + rewrite check_if_frozen_verdict. unfold check_result.
      destruct (check_verdict (tasks st)) eqn:Hv.
      * split; [reflexivity|]. split; [reflexivity|].
        eexists. rewrite freezer_read_unfold. cbn [with_state removed state].
        rewrite Hr. cbn [freezer_state_eqb]. split; reflexivity.
      * split; [reflexivity|]. split; [reflexivity|].
        eexists. rewrite freezer_read_unfold, Hr, Es. cbn [freezer_state_eqb].
        rewrite check_if_frozen_verdict. unfold check_result. rewrite Hv.
        rewrite Es. split; reflexivity.
    + split; [reflexivity|]. split; [reflexivity|].
      eexists. rewrite freezer_read_unfold, Hr.
      destruct (freezer_state_eqb_spec (state st) STATE_FREEZING); [contradiction|].
      split; reflexivity.
Qed.

(** X9. A write never works against its goal: a write of [RUNNING] asks
    no task to freeze, and a write of [FROZEN] thaws and wakes no task,
    whatever the state and the tasks of the group. *)
Theorem freezer_write_direction buffer st :
  (c_str buffer = "RUNNING"%string ->
   filter is_freeze_request (snd (freezer_write buffer st)) = []) /\
  (c_str buffer = "FROZEN"%string ->
   filter is_thaw (snd (freezer_write buffer st)) = [] /\
   filter is_wake (snd (freezer_write buffer st)) = []).
Proof.
  rewrite freezer_write_parse.
  pose proof (thaw_pass_no_freeze (tasks st)) as Ht.
  destruct (freeze_pass_no_thaw (tasks st)) as [Hf1 Hf2].
  split; intros Eb; rewrite Eb.
  - change (goal_of_token "RUNNING") with (Some STATE_RUNNING).
    unfold write_goal_result, change_state_result. cbv zeta.
    destruct (removed st); [reflexivity|].
    destruct (check_verdict (tasks st)), (state st);
      cbn [freezer_state_eqb snd filter is_freeze_request app];
      rewrite ?filter_app, ?Ht; reflexivity.
  - change (goal_of_token "FROZEN") with (Some STATE_FROZEN).
    unfold write_goal_result, change_state_result. cbv zeta.
    destruct (removed st); [split; reflexivity|].
    destruct (check_verdict (tasks st)), (state st);
      cbn [freezer_state_eqb snd filter is_thaw is_wake app];
      rewrite ?filter_app, ?Hf1, ?Hf2; split; reflexivity.
Qed.

(** X10. Reads and writes of the state file never add or remove a task
    and never change whether the group is removed: the tasks afterwards
    are those before, untouched, each after its freeze request, or each
    after its thaw. *)
Theorem membership_untouched m buffer st :
  (tasks (snd (fst (freezer_read m st))) = tasks st /\
   removed (snd (fst (freezer_read m st))) = removed st) /\
  ((tasks (snd (fst (freezer_write buffer st))) = tasks st \/
    tasks (snd (fst (freezer_write buffer st))) = map pause_one (tasks st) \/
    tasks (snd (fst (freezer_write buffer st))) = map thaw_one (tasks st)) /\
   List.length (tasks (snd (fst (freezer_write buffer st))))
   = List.length (tasks st) /\
   removed (snd (fst (freezer_write buffer st))) = removed st).
Proof.
  split.
  - rewrite freezer_read_unfold. destruct (removed st) eqn:Hr; [now split|].
    destruct (freezer_state_eqb (state st) STATE_FREEZING); [|now split].
    rewrite check_if_frozen_verdict. unfold check_result.
    destruct (check_verdict (tasks st)); now split.
  - rewrite freezer_write_parse.
    destruct (goal_of_token (c_str buffer)) as [goal_state|];
      [|cbn [fst snd]; tauto].
    unfold write_goal_result, change_state_result. cbv zeta.
    destruct (removed st) eqn:Hr; [cbn [fst snd]; tauto|].
    destruct (freezer_state_eqb goal_state _);
      [|destruct (match _ with STATE_RUNNING => _ | _ => _ end)];
      cbn [fst snd tasks removed with_state]; rewrite ?length_map;
      destruct (check_verdict (tasks st)); cbn [tasks removed]; tauto.
Qed.

(** X11. What a write returns and what that tells: the value is 0,
    [-EBUSY], [-EIO] or [-ENODEV]; [-EIO] exactly for an invalid token
    and [-ENODEV] exactly for a valid token on a removed group, both with
    the group untouched and no task visited; [-EBUSY] only for the token
    [FROZEN] on a live group, which is then left in [STATE_FREEZING]. *)
Theorem freezer_write_returns buffer st :
  let '(retval, st', evs) := freezer_write buffer st in
  (retval = 0 \/ retval = - EBUSY \/ retval = - EIO \/ retval = - ENODEV) /\
  (retval = - EIO <-> goal_of_token (c_str buffer) = None) /\
  (retval = - ENODEV <-> goal_of_token (c_str buffer) <> None /\ removed st = true) /\
  (retval = - EIO \/ retval = - ENODEV ->
   st' = st /\ filter is_pause_or_resume evs = [] /\ state_writes evs = []) /\
  (retval = - EBUSY ->
   c_str buffer = "FROZEN"%string /\ removed st = false /\
   state st' = STATE_FREEZING).
Proof.
  rewrite freezer_write_parse. unfold goal_of_token.
  destruct (String.eqb_spec (c_str buffer) "RUNNING") as [Er|Er];
    [|destruct (String.eqb_spec (c_str buffer) "FROZEN") as [Ef|Ef]].
  - unfold write_goal_result, change_state_result. cbv zeta.
    destruct (removed st) eqn:Hr.
    + unfold EBUSY, EIO, ENODEV. repeat split; try tauto; try discriminate;
        try lia; intros; try lia; try discriminate; tauto.
    + destruct (check_verdict (tasks st)), (state st);
        cbn [freezer_state_eqb]; unfold EBUSY, EIO, ENODEV;
        (split; [tauto|]); (split; [split; [lia | discriminate]|]);
        (split; [split; [lia | intros [_ E]; discriminate]|]);
        (split; [intros [E|E]; lia | intros E; lia]).
  - unfold write_goal_result, change_state_result. cbv zeta.
    destruct (removed st) eqn:Hr.
    + unfold EBUSY, EIO, ENODEV. repeat split; try tauto; try discriminate;
        try lia; intros; try lia; try discriminate; tauto.
    + destruct (freeze_verdict_values (tasks st)) as [Ev|Ev];
        destruct (check_verdict (tasks st)), (state st);
        cbn [freezer_state_eqb]; rewrite ?Ev; unfold EBUSY, EIO, ENODEV;
        (split; [tauto|]); (split; [split; [lia | discriminate]|]);
        (split; [split; [lia | intros [_ E]; discriminate]|]);
        (split; [intros [E|E]; lia | intros E; try lia; repeat split; tauto]).
  - unfold EBUSY, EIO, ENODEV. repeat split; try tauto; try discriminate;
      try lia; intros; try lia; try discriminate; tauto.
Qed.

(** X13. The thaw pass wakes exactly the tasks for which
    [__thaw_process] answered non-zero, in the order of the scan and each
    as [__thaw_process] left it; it returns 0 and leaves
    [STATE_RUNNING]. *)
Theorem unfreeze_wakes_thawed st :
  fst (fst (unfreeze_cgroup st)) = 0 /\
  state (snd (fst (unfreeze_cgroup st))) = STATE_RUNNING /\
  filter is_wake (snd (unfreeze_cgroup st)) = map EvWakeUpProcess (woken (tasks st)) /\
  filter is_thaw (snd (unfreeze_cgroup st)) = map EvThawProcess (tasks st).
Proof.
  rewrite unfreeze_cgroup_eq. cbn [fst snd state].
  split; [reflexivity|]. split; [reflexivity|].
  cbn [filter is_wake is_thaw]. rewrite !filter_app.
  rewrite thaw_events_wakes, thaw_events_requests. cbn [filter is_wake is_thaw].
  now rewrite !app_nil_r.
Qed.

(** *** Order of the scan *)

Lemma forallb_perm {A} (f : A -> bool) (l l' : list A) :
  Permutation l l' -> forallb f l = forallb f l'.
Proof.
  induction 1 as [|x l l' _ IH|x y l|l l' l'' _ IH1 _ IH2]; cbn [forallb].
  - reflexivity.
  - now rewrite IH.
  - now rewrite !andb_assoc, (andb_comm (f y)).
  - now rewrite IH1.
Qed.

Lemma existsb_perm {A} (f : A -> bool) (l l' : list A) :
  Permutation l l' -> existsb f l = existsb f l'.
Proof.
  induction 1 as [|x l l' _ IH|x y l|l l' l'' _ IH1 _ IH2]; cbn [existsb].
  - reflexivity.
  - now rewrite IH.
  - now rewrite !orb_assoc, (orb_comm (f y)).
  - now rewrite IH1.
Qed.

(** X5. The order in which the iterator hands out the tasks does not
    matter: on the same tasks in another order a read returns and prints
    the same, a write returns the same, both leave the same state, and
    the tasks a write leaves are the same up to that order. *)
Theorem scan_order_irrelevant m buffer st ts' :
  Permutation (tasks st) ts' ->
  Z.of_nat (List.length (tasks st)) <= UINT_MAX ->
  fst (fst (freezer_read m (with_tasks ts' st))) = fst (fst (freezer_read m st)) /\
  state (snd (fst (freezer_read m (with_tasks ts' st))))
  = state (snd (fst (freezer_read m st))) /\
  fst (fst (freezer_write buffer (with_tasks ts' st)))
  = fst (fst (freezer_write buffer st)) /\
  state (snd (fst (freezer_write buffer (with_tasks ts' st))))
  = state (snd (fst (freezer_write buffer st))) /\
  Permutation (tasks (snd (fst (freezer_write buffer st))))
              (tasks (snd (fst (freezer_write buffer (with_tasks ts' st))))).
Proof.
  intros Hp Hb.
  assert (Hb' : Z.of_nat (List.length ts') <= UINT_MAX)
    by now rewrite <- (Permutation_length Hp).
  assert (Hv : check_verdict ts' = check_verdict (tasks st)).
  { rewrite !check_verdict_bounded by assumption. symmetry. now apply forallb_perm. }
  assert (Hf : freeze_verdict ts' = freeze_verdict (tasks st)).
  { rewrite !freeze_verdict_bounded by assumption.
    now rewrite (existsb_perm cant_freeze_now _ _ Hp). }
  rewrite !freezer_read_unfold, !freezer_write_parse.
  cbn [with_tasks removed state].
  split; [|split].
  - destruct (removed st); [reflexivity|].
    destruct (freezer_state_eqb (state st) STATE_FREEZING); [|reflexivity].
    rewrite !check_if_frozen_verdict. unfold check_result.
    cbn [with_tasks tasks]. rewrite Hv. now destruct (check_verdict (tasks st)).
  - destruct (removed st); [reflexivity|].
    destruct (freezer_state_eqb (state st) STATE_FREEZING); [|reflexivity].
    rewrite !check_if_frozen_verdict. unfold check_result.
    cbn [with_tasks tasks]. rewrite Hv. now destruct (check_verdict (tasks st)).
  - destruct (goal_of_token (c_str buffer)) as [goal_state|];
      [|cbn [fst snd tasks]; repeat split; assumption].
    unfold write_goal_result, change_state_result. cbv zeta.
    cbn [with_tasks removed state tasks]. rewrite Hv, Hf.
    destruct (removed st); [cbn [fst snd tasks]; repeat split; assumption|].
    destruct (freezer_state_eqb goal_state _);
      [|destruct (match _ with STATE_RUNNING => _ | _ => _ end)];
      cbn [fst snd state tasks with_state];
      repeat split; try assumption; now apply Permutation_map.
Qed.

(** *** A frozen group *)

Lemma goal_of_token_running token :
  goal_of_token token = Some STATE_RUNNING -> token = "RUNNING"%string.
Proof.
  unfold goal_of_token.
  destruct (String.eqb_spec token "RUNNING"); [tauto|].
  destruct (String.eqb token "FROZEN"); discriminate.
Qed.

Lemma goal_of_token_values token goal_state :
  goal_of_token token = Some goal_state ->
  goal_state = STATE_RUNNING \/ goal_state = STATE_FROZEN.
Proof.
  unfold goal_of_token.
  destruct (String.eqb token "RUNNING"); [intros E; injection E; auto|].
  destruct (String.eqb token "FROZEN"); [intros E; injection E; auto|discriminate].
Qed.

(** X7. A group recorded as frozen stays so under every operation but
    one: reads, writes of [FROZEN] or of an invalid token, and tasks
    leaving keep [STATE_FROZEN] and add no task (attaching is refused and
    a fork stops at [BUG_ON]); the only way out is a write of [RUNNING],
    which thaws every task and leaves [STATE_RUNNING]. *)
Theorem frozen_until_thawed st st' :
  step st st' ->
  state st = STATE_FROZEN ->
  (state st' = STATE_FROZEN /\
   (List.length (tasks st') <= List.length (tasks st))%nat) \/
  (state st' = STATE_RUNNING /\ removed st = false /\
   tasks st' = map thaw_one (tasks st) /\
   exists buffer evs,
     c_str buffer = "RUNNING"%string /\ freezer_write buffer st = (0, st', evs)).
Proof.
  intros Hs Es. destruct Hs as [m r st' evs E | buffer r st' evs E
    | task st' evs E Hlen | task task' st' evs E Hlen | i | Hts].
  - left. rewrite freezer_read_unfold, Es in E. cbn [freezer_state_eqb] in E.
    destruct (removed st); injection E as _ <- _; now split.
  - pose proof E as E0. rewrite freezer_write_parse in E.
    destruct (goal_of_token (c_str buffer)) as [goal_state|] eqn:Eg;
      [|left; injection E as _ <- _; now split].
    unfold write_goal_result, change_state_result in E. cbv zeta in E.
    destruct (removed st) eqn:Hr; [left; injection E as _ <- _; now split|].
    rewrite Es in E.
    replace (if check_verdict (tasks st) then STATE_FROZEN else STATE_FROZEN)
      with STATE_FROZEN in E by now destruct (check_verdict (tasks st)).
    destruct (goal_of_token_values _ _ Eg) as [-> | ->]; cbn [freezer_state_eqb] in E.
    + right. injection E as Er <- _. cbn [state tasks].
      split; [reflexivity|]. split; [reflexivity|]. split; [reflexivity|].
      exists buffer, evs. split; [now apply goal_of_token_running|].
      now rewrite E0, <- Er.
    + left. injection E as _ <- _. cbn [with_state state tasks]. now split.
  - unfold freezer_can_attach, bind, get_state, ret in E. rewrite Es in E.
    cbn [freezer_state_eqb] in E. unfold EBUSY in E. discriminate.
  - rewrite freezer_fork_cases, Es in E. discriminate.
  - left. cbn [with_tasks state tasks]. split; [exact Es | apply length_remove_nth].
  - left. cbn [state tasks List.length]. split; [exact Es | lia].
Qed.


(** *** Tokens *)

Lemma c_str_app a b : c_str a = a -> c_str (a ++ b)%string = (a ++ c_str b)%string.
Proof.
  induction a as [|c a IH]; intros Ea; [reflexivity|].
  cbn [append c_str] in *.
  destruct (byte_of c =? 0); [discriminate|].
  injection Ea as Ea. now rewrite IH.
Qed.

(** X12. The token is compared as a whole C string: [RUNNING] or
    [FROZEN] followed by any further byte that is not NUL (a newline, a
    blank) is refused with [-EIO] and nothing happens, while what follows
    a NUL is ignored. *)
Theorem freezer_write_whole_token token c rest st :
  token = "RUNNING"%string \/ token = "FROZEN"%string ->
  (byte_of c <> 0 ->
   freezer_write (token ++ String c rest) st = (- EIO, st, [])) /\
  (byte_of c = 0 ->
   freezer_write (token ++ String c rest) st = freezer_write token st).
Proof.
  intros Ht. rewrite !freezer_write_parse.
  assert (Et : c_str token = token) by (destruct Ht as [-> | ->]; reflexivity).
  rewrite c_str_app, Et by exact Et. cbn [c_str].
  split; intros Hc.
  - destruct (Z.eqb_spec (byte_of c) 0) as [E|_]; [contradiction|].
    unfold goal_of_token.
    destruct Ht as [-> | ->]; cbn [append];
      repeat match goal with
        | |- context [String.eqb ?a ?b] =>
            destruct (String.eqb_spec a b) as [E|_]; [congruence|]
        end; reflexivity.
  - destruct (Z.eqb_spec (byte_of c) 0) as [_|E]; [|contradiction].
    destruct Ht as [-> | ->]; reflexivity.
Qed.

(** *** The state diagram at the state file *)


(** X15. After a write of [FROZEN] to a live group the next read prints
    [FROZEN] or [FREEZING], never [RUNNING]; it prints [FROZEN] exactly
    when every task was frozen enough before the write, or the group was
    already recorded as frozen, or every task is frozen enough after its
    freeze request. *)
Theorem write_frozen_then_read m buffer st :
  c_str buffer = "FROZEN"%string ->
  removed st = false ->
  Z.of_nat (List.length (tasks st)) <= UINT_MAX ->
  let st' := snd (fst (freezer_write buffer st)) in
  exists token,
    fst (fst (freezer_read m st'))
    = (0, (m ++ token ++ String "010" EmptyString)%string) /\
    (token = "FROZEN"%string \/ token = "FREEZING"%string) /\
    (token = "FROZEN"%string <->
     forallb frozen_enough (tasks st) = true \/ state st = STATE_FROZEN \/
     forallb frozen_enough (map pause_one (tasks st)) = true).
Proof.
  intros Eb Hlive Hb st'.
  pose proof (write_frozen_result buffer st Eb Hlive Hb) as Ew.
  assert (Est : st' = snd (fst (freezer_write buffer st))) by reflexivity.
  rewrite Ew in Est. clear Ew. clearbody st'. rewrite freezer_read_unfold.
  destruct (forallb frozen_enough (tasks st)) eqn:Hall.
  - subst st'. cbn [snd with_state removed state freezer_state_eqb].
    rewrite Hlive. exists "FROZEN"%string. cbn [fst].
    split; [reflexivity|]. split; [now left|]. split; [now left | reflexivity].
  - destruct (freezer_state_eqb_spec (state st) STATE_FROZEN) as [Es|Es].
    + subst st'. cbn [snd]. rewrite Hlive, Es. cbn [freezer_state_eqb fst].
      rewrite Es. exists "FROZEN"%string.
      split; [reflexivity|]. split; [now left|]. split; [now right; left | reflexivity].
    + subst st'. cbn [snd removed state freezer_state_eqb].
      rewrite check_if_frozen_eq by (cbn [tasks]; now rewrite length_map).
      unfold check_result. cbn [tasks].
      destruct (forallb frozen_enough (map pause_one (tasks st))) eqn:Hall'.
      * exists "FROZEN"%string. cbn [fst with_state state].
        split; [reflexivity|]. split; [now left|].
        split; [now right; right | reflexivity].
      * exists "FREEZING"%string. cbn [fst state].
        split; [reflexivity|]. split; [now right|].
        split; [discriminate|]. intros [E|[E|E]]; congruence.
Qed.

(** *** What the scans never do *)

(** X16. [check_if_frozen] only ever moves the cached state to
    [STATE_FROZEN]: afterwards the state is [STATE_FROZEN] or what it was,
    a group recorded as frozen stays so even when some task is no longer
    frozen enough, and a second check right after the first changes
    nothing more. *)
Theorem check_if_frozen_one_way st :
  let st1 := snd (fst (check_if_frozen st)) in
  (state st1 = STATE_FROZEN \/ state st1 = state st) /\
  (state st = STATE_FROZEN -> st1 = st) /\
  tasks st1 = tasks st /\
  snd (fst (check_if_frozen st1)) = st1.
Proof.
  cbv zeta. rewrite check_if_frozen_verdict. unfold check_result. cbn [fst snd].
  destruct (check_verdict (tasks st)) eqn:Hv.
  - split; [now left|]. split; [intros <-; apply with_state_same|].
    split; [reflexivity|].
    rewrite check_if_frozen_verdict. unfold check_result.
    cbn [fst snd with_state tasks]. now rewrite Hv.
  - split; [now right|]. split; [reflexivity|]. split; [reflexivity|].
    rewrite check_if_frozen_verdict. unfold check_result. now rewrite Hv.
Qed.

Lemma freeze_pass_signal_only ts task sig_only :
  In (EvFreezeTask task sig_only) (freeze_pass_events ts) ->
  sig_only = true /\ In task ts.
Proof.
  unfold freeze_pass_events. intros [E|[E|Hin]]; try discriminate.
  apply in_app_or in Hin. destruct Hin as [Hin|[E|[]]]; [|discriminate].
  apply in_map_iff in Hin. destruct Hin as [t [E Ht]].
  injection E as -> ->. now split.
Qed.

Lemma thaw_pass_no_request ts task sig_only :
  ~ In (EvFreezeTask task sig_only) (thaw_pass_events ts).
Proof.
  intros Hin.
  assert (Hf : In (EvFreezeTask task sig_only)
                 (filter is_freeze_request (thaw_pass_events ts)))
    by (apply filter_In; now split).
  now rewrite thaw_pass_no_freeze in Hf.
Qed.

(** X17. Every freeze request the file makes is for signal delivery only
    ([sig_only] is true), and it is made to a task of the group, through
    a write, or to the forking task, through the fork hook. *)
Theorem freeze_requests_signal_only buffer candidate st task sig_only :
  (In (EvFreezeTask task sig_only) (snd (freezer_write buffer st)) ->
   sig_only = true /\ In task (tasks st)) /\
  (In (EvFreezeTask task sig_only) (outcome_events (freezer_fork candidate st)) ->
   sig_only = true /\ task = candidate).
Proof.
  split.
  - rewrite freezer_write_parse.
    destruct (goal_of_token (c_str buffer)) as [goal_state|]; [|intros []].
    unfold write_goal_result, change_state_result. cbv zeta.
    destruct (removed st).
    { cbn. intros Hin; decompose [or] Hin; try discriminate; contradiction. }
    assert (Hc : forall b : bool,
              ~ In (EvFreezeTask task sig_only)
                  (EvIterStart :: (if b then [EvSetState STATE_FROZEN] else [])
                     ++ [EvIterEnd])).
    { intros b Hin. destruct b; cbn in Hin;
        decompose [or] Hin; try discriminate; contradiction. }
    destruct (freezer_state_eqb goal_state _);
      [|destruct (match _ with STATE_RUNNING => _ | _ => _ end)];
      cbn [snd]; intros [E|[E|Hin]]; try discriminate;
      repeat (apply in_app_or in Hin; destruct Hin as [Hin|Hin]);
      try (now apply Hc in Hin);
      try (now apply freeze_pass_signal_only in Hin);
      try (now apply thaw_pass_no_request in Hin);
      cbn in Hin; decompose [or] Hin; try discriminate; contradiction.
  - rewrite freezer_fork_cases. destruct (state st); cbn;
      intros Hin; decompose [or] Hin; try discriminate; try contradiction.
    match goal with E : EvFreezeTask _ _ = EvFreezeTask _ _ |- _ =>
      injection E as -> -> end. now split.
Qed.

(** *** The fork hook while a group is being thawed *)

(** [unfreeze_cgroup] is its scan followed by the store of
    [STATE_RUNNING]. *)
Lemma unfreeze_cgroup_split st :
  unfreeze_cgroup st
  = (0, with_state STATE_RUNNING (snd (fst (unfreeze_cgroup_scan st))),
     snd (unfreeze_cgroup_scan st) ++ [EvSetState STATE_RUNNING]).
Proof.
  rewrite unfreeze_cgroup_eq.
  unfold unfreeze_cgroup_scan, bind, emit, cgroup_iter.
  rewrite thaw_scan. cbn [fst snd with_state with_tasks state tasks removed app].
  now rewrite <- app_assoc.
Qed.

(** Between the scan and the store the tasks are thawed and woken while
    the group is still recorded as it was: for a group recorded as
    frozen, [freezer_fork], which reads the state before it takes
    [freezer->lock], stops at [BUG_ON] there. *)
Lemma fork_during_thaw task st :
  state st = STATE_FROZEN ->
  state (snd (fst (unfreeze_cgroup_scan st))) = STATE_FROZEN /\
  tasks (snd (fst (unfreeze_cgroup_scan st))) = map thaw_one (tasks st) /\
  filter is_wake (snd (unfreeze_cgroup_scan st))
  = map EvWakeUpProcess (woken (tasks st)) /\
  freezer_fork task (snd (fst (unfreeze_cgroup_scan st)))
  = Bug (snd (fst (unfreeze_cgroup_scan st)))
      [EvTaskLock task; EvTaskUnlock task].
Proof.
  intros Es. rewrite freezer_fork_cases.
  unfold unfreeze_cgroup_scan, bind, emit, cgroup_iter.
  rewrite thaw_scan. cbn [fst snd with_tasks state tasks app].
  rewrite Es. split; [reflexivity|]. split; [reflexivity|].
  split; [|reflexivity].
  cbn [filter is_wake]. rewrite filter_app, thaw_events_wakes.
  cbn [filter is_wake]. now rewrite app_nil_r.
Qed.

End FreezerFurther.

(** ** The further properties at work on sample groups *)

Section FurtherWitnesses.
Import Adapter Sample.

Lemma write_running_then_read_witness :
  c_str "RUNNING" = "RUNNING"%string /\ removed frozen_group = false /\
  exists st' evs,
    freezer_write "RUNNING" frozen_group = (0, st', evs) /\
    state st' = STATE_RUNNING /\
    freezer_read EmptyString st'
    = (0, ("RUNNING" ++ String "010" EmptyString)%string, st',
       [EvCgroupLock; EvSpinLockIrq; EvSpinUnlockIrq; EvCgroupUnlock]).
Proof.
  split; [reflexivity|]. split; [reflexivity|].
  destruct (write_running_then_read EmptyString "RUNNING" frozen_group
              eq_refl eq_refl) as [st' [evs [E [Es [_ [_ Er]]]]]].
  exists st', evs. split; [exact E|]. split; [exact Es | exact Er].
Defined.

Lemma write_frozen_outcome_witness :
  c_str "FROZEN" = "FROZEN"%string /\ removed busy_group = false /\
  Z.of_nat (List.length (tasks busy_group)) <= UINT_MAX /\
  fst (fst (freezer_write "FROZEN" busy_group)) = - EBUSY /\
  state (snd (fst (freezer_write "FROZEN" busy_group))) <> STATE_RUNNING.
Proof.
  split; [reflexivity|]. split; [reflexivity|].
  split; [vm_compute; discriminate|].
  destruct (write_frozen_outcome "FROZEN" busy_group eq_refl eq_refl)
    as [E Hs]; [vm_compute; discriminate|].
  split; [now rewrite E | exact Hs].
Defined.

Lemma removed_group_untouched_witness :
  removed (mkSys STATE_FREEZING [runner] true) = true /\
  freezer_read EmptyString (mkSys STATE_FREEZING [runner] true)
  = (- ENODEV, EmptyString, mkSys STATE_FREEZING [runner] true,
     [EvCgroupLock; EvCgroupUnlock]) /\
  freezer_write "RUNNING" (mkSys STATE_FREEZING [runner] true)
  = (- ENODEV, mkSys STATE_FREEZING [runner] true, [EvCgroupLock; EvCgroupUnlock]).
Proof.
  split; [reflexivity|].
  destruct (removed_group_untouched EmptyString "RUNNING"
              (mkSys STATE_FREEZING [runner] true) eq_refl) as [Er [Ew _]].
  split; [exact Er|]. apply Ew. vm_compute. discriminate.
Defined.

Lemma scan_order_irrelevant_witness :
  Permutation (tasks busy_group) [stubborn; runner; sleeper] /\
  Z.of_nat (List.length (tasks busy_group)) <= UINT_MAX /\
  fst (fst (freezer_write "FROZEN"
              (with_tasks [stubborn; runner; sleeper] busy_group)))
  = fst (fst (freezer_write "FROZEN" busy_group)).
Proof.
  split; [apply perm_swap|]. split; [vm_compute; discriminate|].
  apply (scan_order_irrelevant EmptyString "FROZEN" busy_group
           [stubborn; runner; sleeper]);
    [apply perm_swap | vm_compute; discriminate].
Defined.

Lemma frozen_until_thawed_witness :
  step frozen_group (mkSys STATE_RUNNING [mkMember false false true false false] false) /\
  state frozen_group = STATE_FROZEN /\
  ((state (mkSys STATE_RUNNING [mkMember false false true false false] false)
    = STATE_FROZEN /\
    (List.length (tasks (mkSys STATE_RUNNING
                           [mkMember false false true false false] false))
     <= List.length (tasks frozen_group))%nat) \/
   (state (mkSys STATE_RUNNING [mkMember false false true false false] false)
    = STATE_RUNNING /\ removed frozen_group = false /\
    tasks (mkSys STATE_RUNNING [mkMember false false true false false] false)
    = map thaw_one (tasks frozen_group) /\
    exists buffer evs,
      c_str buffer = "RUNNING"%string /\
      freezer_write buffer frozen_group
      = (0, mkSys STATE_RUNNING [mkMember false false true false false] false, evs))).
Proof.
  assert (Hs : step frozen_group
                 (mkSys STATE_RUNNING [mkMember false false true false false] false))
    by (eapply (step_write frozen_group "RUNNING"); reflexivity).
  split; [exact Hs|]. split; [reflexivity|].
  exact (frozen_until_thawed frozen_group _ Hs eq_refl).
Defined.

Lemma freezer_write_whole_token_witness :
  ("FROZEN"%string = "RUNNING"%string \/ "FROZEN"%string = "FROZEN"%string) /\
  freezer_write ("FROZEN" ++ String "010" EmptyString) running_group
  = (- EIO, running_group, []).
Proof.
  split; [now right|].
  apply (freezer_write_whole_token "FROZEN" "010" EmptyString running_group);
    [now right | vm_compute; discriminate].
Defined.


Lemma write_frozen_then_read_witness :
  c_str "FROZEN" = "FROZEN"%string /\ removed halted = false /\
  Z.of_nat (List.length (tasks halted)) <= UINT_MAX /\
  exists token,
    fst (fst (freezer_read EmptyString (snd (fst (freezer_write "FROZEN" halted)))))
    = (0, (token ++ String "010" EmptyString)%string) /\
    (token = "FROZEN"%string \/ token = "FREEZING"%string).
Proof.
  split; [reflexivity|]. split; [reflexivity|].
  split; [vm_compute; discriminate|].
  destruct (write_frozen_then_read EmptyString "FROZEN" halted eq_refl eq_refl)
    as [token [E [Ht _]]]; [vm_compute; discriminate|].
  exists token. split; [exact E | exact Ht].
Defined.

End FurtherWitnesses.

(** ** A fork while the group is being thawed *)

Section ForkWhileThawing.
Import Adapter Sample.

(** The group [mixed_frozen] is reached from [mixed] by a write of
    [FROZEN], which asks both members and leaves the group freezing, and
    a read, which finds one member paused and the other stopped with the
    freeze pending. *)
Lemma mixed_frozen_reachable : reachable mixed_frozen.
Proof.
  apply (reach_step mixed_freezing).
  - apply (reach_step mixed).
    + apply reach_create; [reflexivity | vm_compute; discriminate].
    + eapply (step_write mixed "FROZEN"). reflexivity.
  - eapply (step_read mixed_freezing EmptyString). reflexivity.
Qed.

(** C10, evaluated where the assertion of [freezer_fork] fails.  The
    group [mixed_frozen] was built with every admission open only while
    the group was not frozen.  A write of [RUNNING] then runs
    [unfreeze_cgroup]: its scan thaws and wakes the paused member, which
    runs again as [runner], and only afterwards is [STATE_RUNNING]
    stored.  In between, the group is still recorded [STATE_FROZEN], and
    a fork by the woken member reaches [freezer_fork], which reads the
    state before it takes [freezer->lock] and stops at [BUG_ON]. *)
Theorem fork_bug_while_thawing :
  reachable mixed_frozen /\
  freezer_can_attach runner mixed_frozen = (- EBUSY, mixed_frozen, []) /\
  unfreeze_cgroup mixed_frozen
  = (0, with_state STATE_RUNNING (snd (fst (unfreeze_cgroup_scan mixed_frozen))),
     snd (unfreeze_cgroup_scan mixed_frozen) ++ [EvSetState STATE_RUNNING]) /\
  state (snd (fst (unfreeze_cgroup_scan mixed_frozen))) = STATE_FROZEN /\
  In (EvWakeUpProcess runner) (snd (unfreeze_cgroup_scan mixed_frozen)) /\
  In runner (tasks (snd (fst (unfreeze_cgroup_scan mixed_frozen)))) /\
  frozen_enough runner = false /\
  task_is_stopped_or_traced runner = false /\
  freezer_fork runner (snd (fst (unfreeze_cgroup_scan mixed_frozen)))
  = Bug (snd (fst (unfreeze_cgroup_scan mixed_frozen)))
      [EvTaskLock runner; EvTaskUnlock runner].
Proof.
  split; [exact mixed_frozen_reachable|].
  split; [reflexivity|].
  split; [apply unfreeze_cgroup_split|].
  split; [reflexivity|].
  split; [vm_compute; tauto|].
  split; [vm_compute; tauto|].
  split; [reflexivity|]. split; [reflexivity|].
  apply fork_during_thaw. reflexivity.
Qed.

End ForkWhileThawing.
